(** * ObjectWise: the match-and-rank engine, the instruction synthesizer,
      the recognition orchestrator and the demo fallback.

    Shallow embedding of
      - [ObjectContext] with the keyword-mapping-aware matcher
        (module [Authoritative]),
      - the older [ObjectContext] with the simple matcher
        (module [Superseded]),
      - [src/data/visionToInstructions.js] (module [Synth]).

    Conventions of the embedding.
      - JavaScript strings are modelled by [string]; labels, names, tags and
        categories are taken to be ASCII text, so [toLowerCase] and
        [toUpperCase] act on the letters A-Z / a-z only.
      - JavaScript numbers that carry scores are modelled by exact rationals
        [Q] in the modules [Authoritative], [Superseded] and [Synth], which
        leaves the rounding error of binary64 arithmetic out; integers
        produced by [Math.round] and [Math.floor] are [Z] there.  Where a
        score meets a threshold the rounding decides: the module
        [OnNumbers] has the matcher once more with the scores as binary64
        Numbers (module [Number]), and the acceptance floor is stated
        there.
      - A property that may be missing ([undefined]) is an [option].
      - [objectDatabase] is imported by the source from a module that is not
        part of the modelled files; it is a parameter everywhere.
      - A thrown exception is a value of [exn]; code that may throw returns
        [result]. *)

From Stdlib Require Import ZArith QArith Qround Lqa Lia Bool List.
From Stdlib Require Import Ascii String DecimalString.
From Stdlib Require Import SpecFloat.
Import ListNotations.

Open Scope string_scope.
Open Scope Q_scope.

(* ================================================================== *)
(** ** JavaScript primitives used by the sources                       *)
(* ================================================================== *)

Module Js.

(** [a < b] and [a > b] on numbers. *)
Definition ltb (a b : Q) : bool := negb (Qle_bool b a).
Definition gtb (a b : Q) : bool := ltb b a.

(** [Math.floor] and [Math.round] (halves are rounded up). *)
Definition Math_floor (x : Q) : Z := Qfloor x.
Definition Math_round (x : Q) : Z := Qfloor (x + (1 # 2)).
Definition Math_min (a b : Z) : Z := Z.min a b.

(** Decimal rendering of an integer, as string conversion does. *)
Definition string_of_Z (z : Z) : string := NilZero.string_of_int (Z.to_int z).

(** [x.toFixed(2)]: the integer [n] with [n / 100] nearest to [x] (the
    larger one on a tie), printed with two decimals. *)
Definition toFixed2_abs (x : Q) : string :=
  let n := Qfloor (x * 100 + (1 # 2)) in
  let frac := (n mod 100)%Z in
  string_of_Z (n / 100)%Z ++ "." ++
  (if (frac <? 10)%Z then "0" else "") ++ string_of_Z frac.

Definition toFixed2 (x : Q) : string :=
  if ltb x 0 then "-" ++ toFixed2_abs (- x) else toFixed2_abs x.

(** [c.toLowerCase()] and [c.toUpperCase()] on one ASCII character. *)
Definition lower_ascii (c : ascii) : ascii :=
  let n := nat_of_ascii c in
  if (65 <=? n)%nat && (n <=? 90)%nat then ascii_of_nat (n + 32) else c.

Definition upper_ascii (c : ascii) : ascii :=
  let n := nat_of_ascii c in
  if (97 <=? n)%nat && (n <=? 122)%nat then ascii_of_nat (n - 32) else c.

Fixpoint map_string (f : ascii -> ascii) (s : string) : string :=
  match s with
  | EmptyString => EmptyString
  | String c s' => String (f c) (map_string f s')
  end.

Definition toLowerCase (s : string) : string := map_string lower_ascii s.
Definition toUpperCase (s : string) : string := map_string upper_ascii s.

(** The strings of this development are sequences of 8-bit characters.
    They stand for the JavaScript strings all of whose characters are
    ASCII: on these, [toLowerCase], [toUpperCase] and [length] are as
    defined here; for other characters the case mappings of JavaScript
    can change the number of characters. *)
Definition is_ascii_char (c : ascii) : bool := (nat_of_ascii c <? 128)%nat.

Fixpoint is_ascii (s : string) : bool :=
  match s with
  | EmptyString => true
  | String c s' => is_ascii_char c && is_ascii s'
  end.

(** [s.includes(sub)]: [sub] occurs in [s] as a contiguous substring. *)
Fixpoint includes (s sub : string) : bool :=
  String.prefix sub s ||
  match s with
  | EmptyString => false
  | String _ s' => includes s' sub
  end.

(** [s.length] *)
Definition str_length (s : string) : Z := Z.of_nat (String.length s).

(** [arr.includes(x)] on an array of strings. *)
Definition array_includes (arr : list string) (x : string) : bool :=
  existsb (String.eqb x) arr.

(** [s.split(' ')] *)
Fixpoint split_space_aux (cur : string) (s : string) : list string :=
  match s with
  | EmptyString => [cur]
  | String c s' =>
      if Ascii.eqb c " "%char then cur :: split_space_aux "" s'
      else split_space_aux (cur ++ String c "") s'
  end.

Definition split_space (s : string) : list string := split_space_aux "" s.

(** [arr.join(' ')] *)
Fixpoint join_space (l : list string) : string :=
  match l with
  | [] => ""
  | [x] => x
  | x :: rest => x ++ " " ++ join_space rest
  end.

(** [a || b] where [a] is a string or undefined: the empty string and
    [undefined] are falsy. *)
Definition or_str (a b : option string) : option string :=
  match a with
  | Some s => if String.eqb s "" then b else a
  | None => b
  end.

(** [a || d] ending in a default that is always defined. *)
Definition or_default {A : Type} (a : option A) (d : A) : A :=
  match a with Some x => x | None => d end.

(** [arr[i]] for an integer index: [undefined] out of range. *)
Definition index {A : Type} (arr : list A) (i : Z) : option A :=
  if (i <? 0)%Z then None else nth_error arr (Z.to_nat i).

(** The own properties of an object literal used as a lookup table:
    [obj[key]] for a key that is not [inherited] (below). *)
Fixpoint lookup {A : Type} (tbl : list (string * A)) (key : string) : option A :=
  match tbl with
  | [] => None
  | (k, v) :: rest => if String.eqb k key then Some v else lookup rest key
  end.

(** The properties that every object literal inherits from
    [Object.prototype]: for these keys [obj[key]] is a function, or the
    prototype itself, although the literal does not list them. *)
Definition inheritedKeys : list string :=
  [ "constructor"; "__proto__"; "hasOwnProperty"; "isPrototypeOf";
    "propertyIsEnumerable"; "toLocaleString"; "toString"; "valueOf";
    "__defineGetter__"; "__defineSetter__"; "__lookupGetter__";
    "__lookupSetter__" ].

Definition inherited (key : string) : bool := array_includes inheritedKeys key.

(** Thrown values. *)
Inductive exn : Type :=
| Error (message : string)
| TypeError.

Inductive result (A : Type) : Type :=
| Return (a : A)
| Throw (e : exn).
Arguments Return {A} a.
Arguments Throw {A} e.

Definition bind {A B : Type} (m : result A) (k : A -> result B) : result B :=
  match m with
  | Return a => k a
  | Throw e => Throw e
  end.

(** [try { body } catch (error) { handler(error) }] *)
Definition try_catch {A : Type} (body : result A) (handler : exn -> result A)
  : result A :=
  match body with
  | Return a => Return a
  | Throw e => handler e
  end.

End Js.

Notation "x <- m ;; k" := (Js.bind m (fun x => k))
  (at level 61, m at next level, right associativity).

(* ================================================================== *)
(** ** Data model                                                      *)
(* ================================================================== *)

(** One annotation of the vision provider: a label annotation carries
    [description], a localized object annotation carries [name]. *)
Record Detection : Type := mkDetection {
  description : option string;
  name : option string;
  score : option Q
}.

(** An entry of [objectDatabase]; the matcher and the demo fallback read
    [name], [category] and [tags] only. *)
Record KnowledgeEntry : Type := mkEntry {
  obj_name : string;
  obj_category : string;
  obj_tags : list string
}.

(** [detection.score || 0] *)
Definition score_or_0 (d : Detection) : Q := Js.or_default (score d) 0.

(* ================================================================== *)
(** ** Instruction synthesizer: [src/data/visionToInstructions.js]     *)
(* ================================================================== *)

Module Synth.

(** [visionData.description || visionData.name] *)
Definition detectedLabel_of (visionData : Detection) : option string :=
  Js.or_str (description visionData) (name visionData).

(** [Math.round((visionData.score || 0) * 100)] *)
Definition confidence_of (visionData : Detection) : Z :=
  Js.Math_round (score_or_0 visionData * 100).

Definition categoryMapping : list (string * string) :=
  [ ("mobile phone", "Electronics"); ("smartphone", "Electronics");
    ("telephone", "Electronics"); ("computer", "Electronics");
    ("laptop", "Electronics"); ("tablet", "Electronics");
    ("camera", "Electronics"); ("television", "Electronics");
    ("speaker", "Electronics");
    ("knife", "Kitchen Tools"); ("kitchen knife", "Kitchen Tools");
    ("spoon", "Kitchen Tools"); ("fork", "Kitchen Tools");
    ("spatula", "Kitchen Tools"); ("whisk", "Kitchen Tools");
    ("cutting board", "Kitchen Tools");
    ("coffee maker", "Appliances"); ("microwave", "Appliances");
    ("toaster", "Appliances"); ("blender", "Appliances");
    ("washing machine", "Appliances"); ("refrigerator", "Appliances");
    ("dishwasher", "Appliances");
    ("hammer", "Hand Tools"); ("screwdriver", "Hand Tools");
    ("wrench", "Hand Tools"); ("drill", "Power Tools");
    ("saw", "Power Tools"); ("pliers", "Hand Tools");
    ("plant", "Plants"); ("flower", "Plants"); ("tree", "Plants");
    ("succulent", "Plants"); ("houseplant", "Plants");
    ("bicycle", "Sports Equipment"); ("ball", "Sports Equipment");
    ("racket", "Sports Equipment"); ("dumbbell", "Sports Equipment");
    ("fire extinguisher", "Safety Equipment");
    ("first aid kit", "Safety Equipment"); ("helmet", "Safety Equipment") ].

(** [word.charAt(0).toUpperCase() + word.slice(1)] *)
Definition capitalize (word : string) : string :=
  match word with
  | EmptyString => EmptyString
  | String c rest => String (Js.upper_ascii c) rest
  end.

Definition formatObjectName (label : string) : string :=
  Js.join_space (map capitalize (Js.split_space label)).

(** [generateTags(label)].  For a lower-cased label that names an inherited
    property, [synonyms[...]] is a function or the prototype object: it is
    truthy and not iterable, so the spread of line 106 throws. *)
Definition generateTags (label : string) : Js.result (list string) :=
  let words := Js.split_space (Js.toLowerCase label) in
  let synonyms :=
    [ ("mobile phone", ["smartphone"; "cell phone"; "phone"; "device"]);
      ("knife", ["blade"; "cutting tool"; "kitchen knife"]);
      ("computer", ["laptop"; "pc"; "desktop"; "device"]);
      ("plant", ["houseplant"; "green"; "botanical"]) ] in
  if Js.inherited (Js.toLowerCase label) then Js.Throw Js.TypeError
  else
    Js.Return
      (words ++ Js.or_default (Js.lookup synonyms (Js.toLowerCase label)) [])%list.

Definition generateDescription (label category : string) : string :=
  let templates :=
    [ ("Electronics", "A " ++ label ++
         " commonly used for communication, entertainment, or productivity tasks.");
      ("Kitchen Tools", "A " ++ label ++
         " used for food preparation and cooking tasks.");
      ("Appliances", "A " ++ label ++
         " household appliance for daily living tasks.");
      ("Hand Tools", "A " ++ label ++
         " manual tool for various repair and construction tasks.");
      ("Power Tools", "A " ++ label ++
         " power tool for construction, repair, and DIY projects.");
      ("Plants", "A " ++ label ++
         " that requires care, watering, and proper lighting conditions.");
      ("Sports Equipment", "A " ++ label ++
         " used for athletic activities and exercise.");
      ("Safety Equipment", "A " ++ label ++
         " designed for protection and emergency situations.");
      ("General Items", "A " ++ label ++
         " with various practical applications.") ] in
  Js.or_default (Js.lookup templates category)
    (Js.or_default (Js.lookup templates "General Items") "").

Definition getDifficultyLevel (category : string) : string :=
  let levels :=
    [ ("Electronics", "Beginner"); ("Kitchen Tools", "Intermediate");
      ("Appliances", "Beginner"); ("Hand Tools", "Beginner");
      ("Power Tools", "Intermediate"); ("Plants", "Beginner");
      ("Sports Equipment", "Beginner"); ("Safety Equipment", "Intermediate") ] in
  Js.or_default (Js.lookup levels category) "Beginner".

Definition getTimeEstimate (category : string) : string :=
  let times :=
    [ ("Electronics", "5-15 min"); ("Kitchen Tools", "5-10 min");
      ("Appliances", "10-30 min"); ("Hand Tools", "2-5 min");
      ("Power Tools", "10-20 min"); ("Plants", "5-10 min daily");
      ("Sports Equipment", "15-30 min"); ("Safety Equipment", "5-10 min") ] in
  Js.or_default (Js.lookup times category) "5-10 min".

Definition getSafetyLevel (label category : string) : string :=
  let dangerousItems := ["knife"; "saw"; "drill"; "fire"; "chemical"] in
  let isDangerous :=
    existsb (fun item => Js.includes (Js.toLowerCase label) item) dangerousItems in
  if isDangerous then "high"
  else if String.eqb category "Power Tools" then "medium"
  else if String.eqb category "Safety Equipment" then "medium"
  else "low".

Definition generateCommonUses (label : string) : list string :=
  let useCases :=
    [ ("mobile phone",
        ["Making calls"; "Sending messages"; "Internet browsing"; "Taking photos"]);
      ("knife", ["Cutting food"; "Chopping vegetables"; "Food preparation"]);
      ("computer", ["Work tasks"; "Entertainment"; "Communication"; "Learning"]);
      ("plant", ["Air purification"; "Home decoration"; "Stress relief"]) ] in
  Js.or_default (Js.lookup useCases (Js.toLowerCase label))
    ["Using " ++ label; "General purpose tasks"].

Definition generateMaterials (label category : string) : list string :=
  let materials :=
    [ ("Electronics", ["Plastic housing"; "Electronic components"; "Battery"]);
      ("Kitchen Tools", ["Stainless steel"; "Plastic handle"]);
      ("Appliances", ["Metal housing"; "Electronic controls"]);
      ("Plants", ["Soil"; "Pot"; "Water"]) ] in
  Js.or_default (Js.lookup materials category) ["Various materials"].

Definition generateWarnings (label category : string) : list string :=
  let warnings :=
    [ ("knife",
        ["Keep blade sharp and clean"; "Always cut away from body"; "Store safely"]);
      ("mobile phone",
        ["Avoid water damage"; "Don't use while driving";
         "Keep away from extreme heat"]);
      ("computer",
        ["Ensure proper ventilation"; "Use surge protection"; "Keep liquids away"]);
      ("plant",
        ["Check for toxicity to pets"; "Avoid overwatering";
         "Provide adequate light"]) ] in
  Js.or_default (Js.lookup warnings (Js.toLowerCase label))
    ["Use as intended"; "Follow safety guidelines"].

Record InstructionStep : Type := mkStep {
  step_title : string;
  step_description : string;
  step_timeEstimate : string;
  step_substeps : list string
}.

Definition generateBasicInstructions (label category : string)
  : list InstructionStep :=
  [ {| step_title := "Basic Setup";
       step_description :=
         "Learn how to properly set up and prepare your " ++ label;
       step_timeEstimate := "5 min";
       step_substeps :=
         [ "Inspect the " ++ label ++ " for any damage";
           "Read any included instructions or labels";
           "Ensure you have proper lighting and space";
           "Gather any additional tools needed" ] |};
    {| step_title := "Safe Operation";
       step_description := "How to use your " ++ label ++ " safely and effectively";
       step_timeEstimate := "10 min";
       step_substeps :=
         [ "Follow proper safety precautions";
           "Use the " ++ label ++ " as intended";
           "Monitor for any issues during use";
           "Stop if anything seems unsafe" ] |} ].

Definition generateMaintenance (label category : string) : list string :=
  let maintenance :=
    [ ("Electronics",
        ["Keep clean and dry"; "Update software regularly"; "Store properly"]);
      ("Kitchen Tools", ["Clean after each use"; "Dry thoroughly"; "Store safely"]);
      ("Plants", ["Water regularly"; "Prune as needed"; "Check for pests"]) ] in
  Js.or_default (Js.lookup maintenance category)
    ["Clean regularly"; "Store properly"; "Inspect for damage"].

Definition generateStorage (label category : string) : string :=
  let storage :=
    [ ("Electronics", "Store in dry place away from extreme temperatures");
      ("Kitchen Tools", "Store in knife block or secure drawer");
      ("Plants", "Keep in appropriate lighting conditions") ] in
  Js.or_default (Js.lookup storage category)
    "Store in clean, dry place when not in use".

Definition getLifespan (category : string) : string :=
  let lifespans :=
    [ ("Electronics", "3-5 years average");
      ("Kitchen Tools", "5-10 years with proper care");
      ("Appliances", "10-15 years with maintenance");
      ("Plants", "Varies by species and care") ] in
  Js.or_default (Js.lookup lifespans category) "5+ years with proper care".

Record AgeRestrictions : Type := mkAge {
  minimumAge : string;
  supervisionRequired : bool;
  supervisionAge : option string;
  notes : option string
}.

Definition getAgeRestrictions (category : string) : AgeRestrictions :=
  let restrictions :=
    [ ("Kitchen Tools", mkAge "12 years" true (Some "16") None);
      ("Power Tools", mkAge "16 years" true (Some "18") None);
      ("Safety Equipment", mkAge "10 years" true (Some "14") None) ] in
  Js.or_default (Js.lookup restrictions category)
    (mkAge "8 years" false None (Some "Adult guidance recommended for first use")).

Record SynthesizedEntry : Type := mkSynth {
  id : string;
  name : string;
  category : string;
  tags : list string;
  description : string;
  difficulty : string;
  timeEstimate : string;
  safetyLevel : string;
  image : option string;
  commonUses : list string;
  materials : list string;
  generalWarnings : list string;
  instructions : list InstructionStep;
  maintenance : list string;
  storage : string;
  lifespan : string;
  ageRestrictions : AgeRestrictions;
  confidence : Z;
  source : string
}.

(** [generateInstructionsForObject(visionData)]; [now] is the value that
    [Date.now()] returns during the call.  A detection with neither a
    description nor a name makes [detectedLabel.toLowerCase()] throw, and
    a label that [generateTags] cannot spread makes the call throw while
    the object literal is built; the lookups keyed by the label that are
    evaluated after the tags therefore never meet an inherited key. *)
Definition generateInstructionsForObject (now : Z) (visionData : Detection)
  : Js.result SynthesizedEntry :=
  let confidence := confidence_of visionData in
  match detectedLabel_of visionData with
  | None => Js.Throw Js.TypeError
  | Some detectedLabel =>
      let category :=
        Js.or_default (Js.lookup categoryMapping (Js.toLowerCase detectedLabel))
          "General Items" in
      tags <- generateTags detectedLabel ;;
      Js.Return
        {| id := "vision-" ++ Js.string_of_Z now;
           name := formatObjectName detectedLabel;
           category := category;
           tags := tags;
           description := generateDescription detectedLabel category;
           difficulty := getDifficultyLevel category;
           timeEstimate := getTimeEstimate category;
           safetyLevel := getSafetyLevel detectedLabel category;
           image := None;
           commonUses := generateCommonUses detectedLabel;
           materials := generateMaterials detectedLabel category;
           generalWarnings := generateWarnings detectedLabel category;
           instructions := generateBasicInstructions detectedLabel category;
           maintenance := generateMaintenance detectedLabel category;
           storage := generateStorage detectedLabel category;
           lifespan := getLifespan category;
           ageRestrictions := getAgeRestrictions category;
           confidence := confidence;
           source := "Google Vision API" |}
  end.

End Synth.

(* ================================================================== *)
(** ** The keyword-mapping-aware [ObjectContext]                       *)
(* ================================================================== *)

Module Authoritative.

(** What [matchToDatabase] returns. *)
Record MatchResult : Type := mkMatch {
  object : KnowledgeEntry;
  confidence : Z;
  detectedAs : string;
  matchScore : string
}.

(** What [performDemoMatching] and [performIntelligentMatching] return;
    [demo_object] is [None] for [null] and for [undefined]. *)
Record DemoResult : Type := mkDemo {
  demo_object : option KnowledgeEntry;
  demo_confidence : Z;
  demo_message : string
}.

(** The values [performObjectRecognition] can resolve to. *)
Inductive Recognition : Type :=
| DatabaseMatch (m : MatchResult)
| Dynamic (dynamicObject : Synth.SynthesizedEntry) (confidence : Z)
| Demo (r : DemoResult).

Definition minConfidenceThreshold : Q := 0.3.

Definition keywordMappings : list (string * list string) :=
  [ ("mobile phone", ["smartphone"; "phone"; "mobile"]);
    ("smartphone", ["mobile phone"; "phone"; "cell phone"]);
    ("coffee maker", ["coffee machine"; "drip coffee"]);
    ("drill", ["power drill"; "electric drill"]);
    ("knife", ["kitchen knife"; "chef knife"]);
    ("screwdriver", ["tool"; "hand tool"]) ].

(** The body of [objTags.forEach(tag => ...)]. *)
Definition tagStep (label : string) (confidence : Q) (matchScore : Q)
    (tag : string) : Q :=
  if String.eqb tag label || String.eqb label tag then
    matchScore + 0.9 * confidence
  else if (Js.includes tag label || Js.includes label tag)
          && (Js.str_length label >? 3)%Z && (Js.str_length tag >? 3)%Z then
    matchScore + 0.5 * confidence
  else matchScore.

(** The body of [Object.entries(keywordMappings).forEach(...)]. *)
Definition keywordStep (label objName : string) (objTags : list string)
    (confidence : Q) (matchScore : Q) (entry : string * list string) : Q :=
  let '(key, synonyms) := entry in
  if existsb (fun synonym => Js.includes label synonym || Js.includes synonym label)
       synonyms then
    if Js.includes objName key || Js.array_includes objTags key then
      matchScore + 0.6 * confidence
    else matchScore
  else matchScore.

(** The value of [matchScore] when the guard of line 264 is reached, for
    the lower-cased [label], its [confidence] and the entry [obj]. *)
Definition pairScore (label : string) (confidence : Q) (obj : KnowledgeEntry)
  : Q :=
  let matchScore := 0 in
  let objName := Js.toLowerCase (obj_name obj) in
  let objTags := map Js.toLowerCase (obj_tags obj) in
  let objCategory := Js.toLowerCase (obj_category obj) in
  let matchScore :=
    if String.eqb objName label || String.eqb label objName then
      matchScore + 1.0 * confidence
    else if Js.includes objName label || Js.includes label objName then
      if (Js.str_length label >? 3)%Z && (Js.str_length objName >? 3)%Z then
        matchScore + 0.7 * confidence
      else matchScore
    else matchScore in
  let matchScore := fold_left (tagStep label confidence) objTags matchScore in
  let matchScore :=
    if Js.includes objCategory label || Js.includes label objCategory then
      matchScore + 0.3 * confidence
    else matchScore in
  fold_left (keywordStep label objName objTags confidence) keywordMappings
    matchScore.

(** The two variables the nested loops assign: [bestMatch], [highestScore]. *)
Definition MatchState : Type := (option MatchResult * Q)%type.

(** [(detection.description || detection.name || '').toLowerCase()] *)
Definition label_of (detection : Detection) : string :=
  Js.toLowerCase
    (Js.or_default (Js.or_str (description detection) (name detection)) "").

(** The body of [objectDatabase.forEach(obj => ...)]. *)
Definition visitEntry (label : string) (confidence : Q) (st : MatchState)
    (obj : KnowledgeEntry) : MatchState :=
  let '(bestMatch, highestScore) := st in
  let matchScore := pairScore label confidence obj in
  if Js.gtb matchScore highestScore && Js.gtb matchScore 0.2 then
    (Some {| object := obj;
             confidence := Js.Math_min (Js.Math_round (matchScore * 100)) 95;
             detectedAs := label;
             matchScore := Js.toFixed2 matchScore |},
     matchScore)
  else st.

Section WithDatabase.

Variable objectDatabase : list KnowledgeEntry.

(** The body of [detections.forEach(detection => ...)]. *)
Definition visitDetection (st : MatchState) (detection : Detection)
  : MatchState :=
  let label := label_of detection in
  let confidence := score_or_0 detection in
  if Js.ltb confidence minConfidenceThreshold then st
  else fold_left (visitEntry label confidence) objectDatabase st.

(** The state after both loops. *)
Definition scan (detections : list Detection) : MatchState :=
  fold_left visitDetection detections (None, 0).

Definition matchToDatabase (detections : list Detection) : option MatchResult :=
  let '(bestMatch, highestScore) := scan detections in
  match bestMatch with
  | None => None
  | Some m => if Js.ltb highestScore 0.4 then None else Some m
  end.

(** *** Demo fallback *)

(** The source of [Math.random()]: the draws still to come. *)
Definition Rng : Type := nat -> Q.

Definition Math_random (g : Rng) : Q * Rng := (g 0%nat, fun n => g (S n)).

(** Lines 338-348: the random selection of last resort. *)
Definition demoRandomSelection (g : Rng) : option DemoResult :=
  let '(r1, g) := Math_random g in
  if Js.gtb r1 0.7 then
    let '(r2, g) := Math_random g in
    let randomObject :=
      Js.index objectDatabase
        (Js.Math_floor (r2 * inject_Z (Z.of_nat (List.length objectDatabase)))) in
    let '(r3, g) := Math_random g in
    Some {| demo_object := randomObject;
            demo_confidence := (Js.Math_floor (r3 * 30) + 40)%Z;
            demo_message := "Demo mode: Random selection for demonstration" |}
  else None.

(** Lines 327-336 followed by the random selection. *)
Definition demoSmallImage (g : Rng) (imageSize : Z) : option DemoResult :=
  if (imageSize <? 30000)%Z then
    let tools :=
      filter (fun obj => String.eqb (obj_category obj) "Hand Tools")
        objectDatabase in
    if (Z.of_nat (List.length tools) >? 0)%Z then
      Some {| demo_object := Js.index tools 0;
              demo_confidence := 70;
              demo_message :=
                "Demo mode: Detected based on image characteristics" |}
    else demoRandomSelection g
  else demoRandomSelection g.

(** [performDemoMatching(imageData)]; the three colour flags the source
    computes with [imageData.includes] are never read. *)
Definition performDemoMatching (g : Rng) (imageData : string)
  : option DemoResult :=
  let imageSize := Js.str_length imageData in
  if (imageSize >? 50000)%Z then
    let appliances :=
      filter (fun obj => String.eqb (obj_category obj) "Appliances")
        objectDatabase in
    if (Z.of_nat (List.length appliances) >? 0)%Z then
      Some {| demo_object := Js.index appliances 0;
              demo_confidence := 65;
              demo_message :=
                "Demo mode: Detected based on image size analysis" |}
    else demoSmallImage g imageSize
  else demoSmallImage g imageSize.

(** The 1500 ms timer of the source only delays the result. *)
Definition performIntelligentMatching (g : Rng) (imageData : string)
  : DemoResult :=
  match performDemoMatching g imageData with
  | Some demoMatch => demoMatch
  | None =>
      {| demo_object := None;
         demo_confidence := 0;
         demo_message :=
           "Object not recognized. Try taking another photo with better lighting or search manually using the search tab." |}
  end.

(** *** The provider call *)

(** One element of [result.responses]. *)
Record AnnotateResponse : Type := mkAnnotate {
  labelAnnotations : option (list Detection);
  localizedObjectAnnotations : option (list Detection)
}.

(** What [fetch] resolves to: [json] is the outcome of [response.json()],
    whose [responses] property may be missing. *)
Record HttpResponse : Type := mkResponse {
  ok : bool;
  status : Z;
  text : string;
  json : Js.result (option (list AnnotateResponse))
}.

(** Everything outside the program that one recognition request reads. *)
Record World : Type := mkWorld {
  API_KEY : option string;
  fetch : Js.result HttpResponse;
  Date_now : Z;
  random : Rng
}.

(** Lines 170-184: dynamic instructions for the first label annotation. *)
Definition dynamicFallback (w : World) (labels : list Detection)
  : Js.result (option Recognition) :=
  match hd_error labels with
  | Some bestDetection =>
      match score bestDetection with
      | Some s =>
          if Js.gtb s 0.5 then
            dynamicObject <-
              Synth.generateInstructionsForObject (Date_now w) bestDetection ;;
            Js.Return (Some (Dynamic dynamicObject (Js.Math_round (s * 100))))
          else Js.Return None
      | None => Js.Return None
      end
  | None => Js.Return None
  end.

(** Lines 154-184: what [callComputerVisionAPI] does with the parsed body. *)
Definition onResponses (w : World)
    (responses : option (list AnnotateResponse))
  : Js.result (option Recognition) :=
  match responses with
  | Some (r0 :: _) =>
      let labels := Js.or_default (labelAnnotations r0) [] in
      let objects := Js.or_default (localizedObjectAnnotations r0) [] in
      let databaseMatch := matchToDatabase (labels ++ objects) in
      match databaseMatch with
      | Some m =>
          if (confidence m >? 70)%Z then Js.Return (Some (DatabaseMatch m))
          else dynamicFallback w labels
      | None => dynamicFallback w labels
      end
  | _ => Js.Return None
  end.

Definition callComputerVisionAPI (w : World) (imageData : string)
  : Js.result (option Recognition) :=
  match Js.or_str (API_KEY w) None with
  | None => Js.Throw (Js.Error "API key not configured")
  | Some _ =>
      Js.try_catch
        (response <- fetch w ;;
         if negb (ok response) then
           Js.Throw (Js.Error ("API request failed: " ++
                               Js.string_of_Z (status response) ++ " - " ++
                               text response))
         else
           result <- json response ;;
           onResponses w result)
        (fun error => Js.Throw error)
  end.

(** [performObjectRecognition]: the value the promise resolves to, or the
    exception it rejects with. *)
Definition performObjectRecognition (w : World) (imageData : string)
  : Js.result Recognition :=
  attempt <-
    Js.try_catch (callComputerVisionAPI w imageData)
      (fun error => Js.Return None) ;;
  match attempt with
  | Some realResult => Js.Return realResult
  | None => Js.Return (Demo (performIntelligentMatching (random w) imageData))
  end.

End WithDatabase.

End Authoritative.

(* ================================================================== *)
(** ** The older [ObjectContext] with the simple matcher               *)
(* ================================================================== *)

Module Superseded.

Record MatchResult : Type := mkMatch {
  object : KnowledgeEntry;
  confidence : Z
}.

Definition MatchState : Type := (option MatchResult * Q)%type.

(** The body of [obj.tags.forEach(tag => ...)]. *)
Definition tagStep (label : string) (confidence : Q) (matchScore : Q)
    (tag : string) : Q :=
  if Js.includes (Js.toLowerCase tag) (Js.toLowerCase label)
     || Js.includes (Js.toLowerCase label) (Js.toLowerCase tag) then
    matchScore + 0.6 * confidence
  else matchScore.

(** The value of [matchScore] when the guard of line 171 is reached. *)
Definition pairScore (label : string) (confidence : Q) (obj : KnowledgeEntry)
  : Q :=
  let matchScore := 0 in
  let matchScore :=
    if Js.includes (Js.toLowerCase (obj_name obj)) (Js.toLowerCase label)
       || Js.includes (Js.toLowerCase label) (Js.toLowerCase (obj_name obj)) then
      matchScore + 0.8 * confidence
    else matchScore in
  let matchScore := fold_left (tagStep label confidence) (obj_tags obj) matchScore in
  if Js.includes (Js.toLowerCase (obj_category obj)) (Js.toLowerCase label)
     || Js.includes (Js.toLowerCase label) (Js.toLowerCase (obj_category obj)) then
    matchScore + 0.5 * confidence
  else matchScore.

(** The body of [objectDatabase.forEach(obj => ...)]. *)
Definition visitEntry (label : string) (confidence : Q) (st : MatchState)
    (obj : KnowledgeEntry) : MatchState :=
  let '(bestMatch, highestScore) := st in
  let matchScore := pairScore label confidence obj in
  if Js.gtb matchScore highestScore then
    (Some {| object := obj;
             confidence := Js.Math_round (matchScore * 100) |},
     matchScore)
  else st.

Section WithDatabase.

Variable objectDatabase : list KnowledgeEntry.

(** The body of [detections.forEach(detection => ...)].  The label is
    [detection.description || detection.name]; when it is undefined, the
    first [label.toLowerCase()] throws, which happens as soon as the
    database has an entry to visit. *)
Definition visitDetection (st : MatchState) (detection : Detection)
  : Js.result MatchState :=
  let confidence := score_or_0 detection in
  match Js.or_str (description detection) (name detection) with
  | Some label => Js.Return (fold_left (visitEntry label confidence) objectDatabase st)
  | None =>
      match objectDatabase with
      | [] => Js.Return st
      | _ :: _ => Js.Throw Js.TypeError
      end
  end.

Fixpoint forEachDetection (detections : list Detection) (st : MatchState)
  : Js.result MatchState :=
  match detections with
  | [] => Js.Return st
  | detection :: rest =>
      st' <- visitDetection st detection ;;
      forEachDetection rest st'
  end.

Definition matchToDatabase (detections : list Detection)
  : Js.result (option MatchResult) :=
  st <- forEachDetection detections (None, 0) ;;
  Js.Return (fst st).

End WithDatabase.

End Superseded.

(* ================================================================== *)
(** ** Comparing the two matchers                                      *)
(* ================================================================== *)

(** The two matchers return the same thing when the simple one does not
    throw and both return nothing or both return the same entry with the
    same confidence (the simple result has no other field). *)
Definition same_match (a : option Authoritative.MatchResult)
    (s : Js.result (option Superseded.MatchResult)) : Prop :=
  match a, s with
  | None, Js.Return None => True
  | Some ma, Js.Return (Some ms) =>
      Authoritative.object ma = Superseded.object ms /\
      Authoritative.confidence ma = Superseded.confidence ms
  | _, _ => False
  end.

(** Two synthesized entries agree on every field other than [id]. *)
Definition same_except_id (a b : Synth.SynthesizedEntry) : Prop :=
  Synth.name a = Synth.name b /\
  Synth.category a = Synth.category b /\
  Synth.tags a = Synth.tags b /\
  Synth.description a = Synth.description b /\
  Synth.difficulty a = Synth.difficulty b /\
  Synth.timeEstimate a = Synth.timeEstimate b /\
  Synth.safetyLevel a = Synth.safetyLevel b /\
  Synth.image a = Synth.image b /\
  Synth.commonUses a = Synth.commonUses b /\
  Synth.materials a = Synth.materials b /\
  Synth.generalWarnings a = Synth.generalWarnings b /\
  Synth.instructions a = Synth.instructions b /\
  Synth.maintenance a = Synth.maintenance b /\
  Synth.storage a = Synth.storage b /\
  Synth.lifespan a = Synth.lifespan b /\
  Synth.ageRestrictions a = Synth.ageRestrictions b /\
  Synth.confidence a = Synth.confidence b /\
  Synth.source a = Synth.source b.

(** Two outcomes of the synthesizer agree up to [id]: both throw the same
    exception, or both return entries that agree on every other field. *)
Definition same_outcome_except_id
    (a b : Js.result Synth.SynthesizedEntry) : Prop :=
  match a, b with
  | Js.Return ea, Js.Return eb => same_except_id ea eb
  | Js.Throw xa, Js.Throw xb => xa = xb
  | _, _ => False
  end.

(** A detection passes the relevance floor of the authoritative matcher. *)
Definition relevant (d : Detection) : bool :=
  negb (Js.ltb (score_or_0 d) Authoritative.minConfidenceThreshold).

(** *** Concrete inputs used below *)

Definition smartphone : KnowledgeEntry :=
  mkEntry "Smartphone" "Electronics" ["mobile phone"].

Definition hammer : KnowledgeEntry :=
  mkEntry "Hammer" "Hand Tools" ["claw"].

Definition drill : KnowledgeEntry :=
  mkEntry "Drill" "Power Tools" ["drill"; "power drill"].

Definition label_detection (label : string) (s : Q) : Detection :=
  mkDetection (Some label) None (Some s).

(** The world of the examples: a key is configured, the provider answers
    with the given annotations. *)
Definition answering (labels objects : list Detection) : Authoritative.World :=
  Authoritative.mkWorld (Some "key")
    (Js.Return (Authoritative.mkResponse true 200 ""
       (Js.Return (Some [Authoritative.mkAnnotate (Some labels) (Some objects)]))))
    1700000000000 (fun _ => 0).

(** A world without a configured key, and one whose request fails. *)
Definition keyless (g : Authoritative.Rng) : Authoritative.World :=
  Authoritative.mkWorld None (Js.Throw (Js.Error "unreachable")) 0 g.

Definition offline (g : Authoritative.Rng) : Authoritative.World :=
  Authoritative.mkWorld (Some "key") (Js.Throw (Js.Error "Failed to fetch")) 0 g.

(** A source of random draws that starts with the three given ones. *)
Definition draws (r1 r2 r3 : Q) : Authoritative.Rng :=
  fun n =>
    match n with
    | 0%nat => r1
    | 1%nat => r2
    | _ => r3
    end.

(** *** Invariants of the authoritative double loop *)

(** The record of line 266 for an entry and the score of its pair. *)
Definition recordFor (label : string) (obj : KnowledgeEntry) (s : Q)
  : Authoritative.MatchResult :=
  Authoritative.mkMatch obj (Js.Math_min (Js.Math_round (s * 100)) 95) label
    (Js.toFixed2 s).

(** [st] was reached by visiting pairs of [ds] and [db]: either nothing was
    recorded and [highestScore] is still 0, or [bestMatch] is the record
    built at line 266 for a pair of a relevant detection and an entry. *)
Definition recorded (db : list KnowledgeEntry) (ds : list Detection)
    (st : Authoritative.MatchState) : Prop :=
  match st with
  | (None, highestScore) => highestScore = 0
  | (Some m, highestScore) =>
      exists d obj,
        In d ds /\ relevant d = true /\ In obj db /\
        highestScore =
          Authoritative.pairScore (Authoritative.label_of d) (score_or_0 d) obj /\
        0.2 < highestScore /\
        m = recordFor (Authoritative.label_of d) obj highestScore
  end.

(** [highestScore] bounds the score of every visited pair that could have
    been recorded. *)
Definition dominating (db : list KnowledgeEntry) (ds : list Detection)
    (st : Authoritative.MatchState) : Prop :=
  forall d obj,
    In d ds -> relevant d = true -> In obj db ->
    Authoritative.pairScore (Authoritative.label_of d) (score_or_0 d) obj
      <= snd st \/
    Authoritative.pairScore (Authoritative.label_of d) (score_or_0 d) obj
      <= 0.2.

(* ================================================================== *)
(** ** The reducer and the functions [ObjectProvider] exposes          *)
(* ================================================================== *)

Module Store.

(** What the store keeps as an object: an entry of the database or a
    synthesized one. *)
Inductive IdentifiedObject : Type :=
| Curated (obj : KnowledgeEntry)
| Synthesized (obj : Synth.SynthesizedEntry).

(** [result.object], [result.confidence] and [result.message] of what
    [performObjectRecognition] resolves to. *)
Definition result_object (result : Authoritative.Recognition)
  : option IdentifiedObject :=
  match result with
  | Authoritative.DatabaseMatch m => Some (Curated (Authoritative.object m))
  | Authoritative.Dynamic dynamicObject _ => Some (Synthesized dynamicObject)
  | Authoritative.Demo r => option_map Curated (Authoritative.demo_object r)
  end.

Definition result_confidence (result : Authoritative.Recognition) : Z :=
  match result with
  | Authoritative.DatabaseMatch m => Authoritative.confidence m
  | Authoritative.Dynamic _ confidence => confidence
  | Authoritative.Demo r => Authoritative.demo_confidence r
  end.

Definition result_message (result : Authoritative.Recognition)
  : option string :=
  match result with
  | Authoritative.DatabaseMatch _ => None
  | Authoritative.Dynamic _ _ => None
  | Authoritative.Demo r => Some (Authoritative.demo_message r)
  end.

Section WithTips.

(** The shape of a community tip is not fixed by the source. *)
Variable Tip : Type.

Record State : Type := mkState {
  currentObject : option IdentifiedObject;
  identifiedObjects : list IdentifiedObject;
  searchResults : list KnowledgeEntry;
  communityTips : list Tip;
  loading : bool;
  error : option string;
  confidence : Z
}.

Definition initialState : State := mkState None [] [] [] false None 0.

(** The actions by their [type]; [OTHER] is any type the [switch] does not
    list. *)
Inductive Action : Type :=
| SET_LOADING (payload : bool)
| SET_ERROR (payload : option string)
| SET_CURRENT_OBJECT (payload : IdentifiedObject)
| SET_CONFIDENCE (payload : Z)
| ADD_IDENTIFIED_OBJECT (payload : IdentifiedObject)
| SET_SEARCH_RESULTS (payload : list KnowledgeEntry)
| ADD_COMMUNITY_TIP (payload : Tip)
| OTHER (type : string).

Definition objectReducer (state : State) (action : Action) : State :=
  match action with
  | SET_LOADING payload =>
      {| currentObject := currentObject state;
         identifiedObjects := identifiedObjects state;
         searchResults := searchResults state;
         communityTips := communityTips state;
         loading := payload;
         error := error state;
         confidence := confidence state |}
  | SET_ERROR payload =>
      {| currentObject := currentObject state;
         identifiedObjects := identifiedObjects state;
         searchResults := searchResults state;
         communityTips := communityTips state;
         loading := false;
         error := payload;
         confidence := confidence state |}
  | SET_CURRENT_OBJECT payload =>
      {| currentObject := Some payload;
         identifiedObjects := identifiedObjects state;
         searchResults := searchResults state;
         communityTips := communityTips state;
         loading := false;
         error := error state;
         confidence := confidence state |}
  | SET_CONFIDENCE payload =>
      {| currentObject := currentObject state;
         identifiedObjects := identifiedObjects state;
         searchResults := searchResults state;
         communityTips := communityTips state;
         loading := loading state;
         error := error state;
         confidence := payload |}
  | ADD_IDENTIFIED_OBJECT payload =>
      {| currentObject := currentObject state;
         identifiedObjects := payload :: firstn 9 (identifiedObjects state);
         searchResults := searchResults state;
         communityTips := communityTips state;
         loading := loading state;
         error := error state;
         confidence := confidence state |}
  | SET_SEARCH_RESULTS payload =>
      {| currentObject := currentObject state;
         identifiedObjects := identifiedObjects state;
         searchResults := payload;
         communityTips := communityTips state;
         loading := loading state;
         error := error state;
         confidence := confidence state |}
  | ADD_COMMUNITY_TIP payload =>
      {| currentObject := currentObject state;
         identifiedObjects := identifiedObjects state;
         searchResults := searchResults state;
         communityTips := payload :: communityTips state;
         loading := loading state;
         error := error state;
         confidence := confidence state |}
  | OTHER _ => state
  end.

(** The state after a sequence of [dispatch] calls. *)
Definition dispatchAll (state : State) (actions : list Action) : State :=
  fold_left objectReducer actions state.

(** [loadCachedData]: the actions it dispatches, given what
    [cacheService.getIdentificationHistory()] resolves to or rejects
    with. *)
Definition loadCachedData (cachedHistory : Js.result (list IdentifiedObject))
  : list Action :=
  match cachedHistory with
  | Js.Return history =>
      if (Z.of_nat (List.length history) >? 0)%Z
      then map ADD_IDENTIFIED_OBJECT history
      else []
  | Js.Throw _ => []
  end.

(** [error.message] of a thrown value; [typeErrorText] is the text the
    engine gives a [TypeError]. *)
Definition message_of (typeErrorText : string) (e : Js.exn) : string :=
  match e with
  | Js.Error message => message
  | Js.TypeError => typeErrorText
  end.

(** [identifyObject(imageData)]: the actions it dispatches, in order.
    [saveIdentification] is [cacheService.saveIdentification]. *)
Definition identifyObject (objectDatabase : list KnowledgeEntry)
    (w : Authoritative.World)
    (saveIdentification : IdentifiedObject -> Js.result unit)
    (typeErrorText : string) (imageData : string) : list Action :=
  [SET_LOADING true; SET_ERROR None] ++
  match Authoritative.performObjectRecognition objectDatabase w imageData with
  | Js.Return result =>
      match result_object result with
      | Some obj =>
          [SET_CURRENT_OBJECT obj;
           SET_CONFIDENCE (result_confidence result);
           ADD_IDENTIFIED_OBJECT obj] ++
          match saveIdentification obj with
          | Js.Return _ => []
          | Js.Throw e => [SET_ERROR (Some (message_of typeErrorText e))]
          end
      | None =>
          let errorMessage :=
            Js.or_default (Js.or_str (result_message result) None)
              "Object not recognized. Try taking another photo with better lighting or a different angle." in
          [SET_ERROR (Some errorMessage)]
      end
  | Js.Throw e => [SET_ERROR (Some (message_of typeErrorText e))]
  end.

(** The test of [searchObjects] for one entry. *)
Definition matchesQuery (query : string) (obj : KnowledgeEntry) : bool :=
  Js.includes (Js.toLowerCase (obj_name obj)) (Js.toLowerCase query)
  || Js.includes (Js.toLowerCase (obj_category obj)) (Js.toLowerCase query)
  || existsb (fun tag => Js.includes (Js.toLowerCase tag) (Js.toLowerCase query))
       (obj_tags obj).

(** [searchObjects(query)]: the action it dispatches. *)
Definition searchObjects (objectDatabase : list KnowledgeEntry)
    (query : string) : Action :=
  SET_SEARCH_RESULTS (filter (matchesQuery query) objectDatabase).

Definition addCommunityTip (tip : Tip) : Action := ADD_COMMUNITY_TIP tip.

End WithTips.

Arguments initialState {Tip}.
Arguments objectReducer {Tip} state action.
Arguments dispatchAll {Tip} state actions.
Arguments loadCachedData {Tip} cachedHistory.
Arguments identifyObject {Tip} objectDatabase w saveIdentification
  typeErrorText imageData.
Arguments searchObjects {Tip} objectDatabase query.
Arguments addCommunityTip {Tip} tip.
Arguments SET_LOADING {Tip} payload.
Arguments SET_ERROR {Tip} payload.
Arguments SET_CURRENT_OBJECT {Tip} payload.
Arguments SET_CONFIDENCE {Tip} payload.
Arguments ADD_IDENTIFIED_OBJECT {Tip} payload.
Arguments SET_SEARCH_RESULTS {Tip} payload.
Arguments ADD_COMMUNITY_TIP {Tip} payload.
Arguments OTHER {Tip} type.
Arguments currentObject {Tip} s.
Arguments identifiedObjects {Tip} s.
Arguments searchResults {Tip} s.
Arguments communityTips {Tip} s.
Arguments loading {Tip} s.
Arguments error {Tip} s.
Arguments confidence {Tip} s.

End Store.

(** The description and the name of a detection, where present, are
    ASCII strings. *)
Definition ascii_labelled (d : Detection) : bool :=
  match description d with Some s => Js.is_ascii s | None => true end &&
  match name d with Some s => Js.is_ascii s | None => true end.

(** A detection with its description and name in upper case. *)
Definition shout (d : Detection) : Detection :=
  mkDetection (option_map Js.toUpperCase (description d))
    (option_map Js.toUpperCase (name d)) (score d).

(** The categories the synthesizer can assign. *)
Definition knownCategories : list string :=
  [ "Electronics"; "Kitchen Tools"; "Appliances"; "Hand Tools"; "Power Tools";
    "Plants"; "Sports Equipment"; "Safety Equipment"; "General Items" ].


(** The answer of [performIntelligentMatching] when nothing was matched. *)
Definition notRecognized : Authoritative.DemoResult :=
  Authoritative.mkDemo None 0
    "Object not recognized. Try taking another photo with better lighting or search manually using the search tab.".

(** What the confidence of a recognition can be, by the path that
    produced it. *)
Definition confidence_in_class (db : list KnowledgeEntry)
    (r : Authoritative.Recognition) : Prop :=
  match r with
  | Authoritative.DatabaseMatch m =>
      (70 < Authoritative.confidence m <= 95)%Z /\
      In (Authoritative.object m) db
  | Authoritative.Dynamic dynamicObject c =>
      (50 <= c)%Z /\ c = Synth.confidence dynamicObject
  | Authoritative.Demo d =>
      (exists obj,
         Authoritative.demo_object d = Some obj /\ In obj db /\
         (40 <= Authoritative.demo_confidence d <= 70)%Z)
      \/ d = notRecognized
  end.



(* ================================================================== *)
(** ** The scores as the code computes them                            *)
(* ================================================================== *)

(** The type Number of JavaScript: the binary64 format of IEEE 754, with
    its two zeros, its two infinities and [NaN], and with every operation
    rounded to the nearest double, ties to even. *)
Module Number.

Definition t : Type := spec_float.

Definition prec : Z := 53%Z.
Definition emax : Z := 1024%Z.

(** The Number that an integer literal denotes. *)
Definition of_Z (z : Z) : t := binary_normalize prec emax z 0 false.

(** The Number that a decimal literal denotes, the literal being given as
    the fraction [p / q] of two integers below [2^53]: the double nearest
    to it. *)
Definition lit (p q : Z) : t := SFdiv prec emax (of_Z p) (of_Z q).

(** The literals with one decimal: [tenths 4] is [0.4]. *)
Definition tenths (n : Z) : t := lit n 10.

Definition zero : t := S754_zero false.

(** [x + y] and [x * y] *)
Definition add (x y : t) : t := SFadd prec emax x y.
Definition mul (x y : t) : t := SFmul prec emax x y.

(** [x < y] and [x > y]: both are false when either side is [NaN]. *)
Definition ltb (x y : t) : bool := SFltb x y.
Definition gtb (x y : t) : bool := SFltb y x.

(** [x <= y] *)
Definition leb (x y : t) : bool := SFleb x y.

Definition is_nan (x : t) : bool :=
  match x with S754_nan => true | _ => false end.

(** [x || 0] for a Number or [undefined]: [0], [-0] and [NaN] are falsy. *)
Definition or_0 (x : option t) : t :=
  match x with
  | Some (S754_zero _) | Some S754_nan | None => zero
  | Some v => v
  end.

(** [Math.round(x)]: the integer nearest to [x], the larger one on a tie;
    a result between -0.5 and 0 is [-0]. *)
Definition Math_round (x : t) : t :=
  match x with
  | S754_finite s m e =>
      if (0 <=? e)%Z then x
      else
        let k := (- e)%Z in
        let sm := if s then Z.neg m else Z.pos m in
        let q := ((2 * sm + 2 ^ k) / 2 ^ (k + 1))%Z in
        if (q =? 0)%Z then S754_zero s else of_Z q
  | _ => x
  end.

(** [Math.min(x, y)] *)
Definition Math_min (x y : t) : t :=
  match SFcompare x y with
  | None => S754_nan
  | Some Lt => x
  | Some Gt => y
  | Some Eq => match x with S754_zero true => x | _ => y end
  end.

(** [x.toFixed(2)] for [x] below [10^21]: the integer [n] with [n / 100]
    nearest to [x] (the larger one on a tie), printed with two decimals. *)
Definition toFixed2_digits (n : Z) : string :=
  let frac := (n mod 100)%Z in
  Js.string_of_Z (n / 100)%Z ++ "." ++
  (if (frac <? 10)%Z then "0" else "") ++ Js.string_of_Z frac.

Definition toFixed2 (x : t) : string :=
  match x with
  | S754_nan => "NaN"
  | S754_infinity s => if s then "-Infinity" else "Infinity"
  | S754_zero _ => toFixed2_digits 0
  | S754_finite s m e =>
      let n :=
        if (0 <=? e)%Z then (Z.pos m * 2 ^ e * 100)%Z
        else ((200 * Z.pos m + 2 ^ (- e)) / 2 ^ (- e + 1))%Z in
      (if s then "-" else "") ++ toFixed2_digits n
  end.

(** The place of a Number in the order of [<]: [None] for [NaN], the same
    place for the two zeros. *)
Definition key (x : t) : option (Z * Z * Z) :=
  match x with
  | S754_nan => None
  | S754_infinity s => Some (if s then (-2) else 2, 0, 0)%Z
  | S754_zero _ => Some (0, 0, 0)%Z
  | S754_finite s m e =>
      Some (if s then (-1, - e, Z.neg m)%Z else (1, e, Z.pos m)%Z)
  end.

Definition lexlt (a b : Z * Z * Z) : Prop :=
  let '(a1, a2, a3) := a in
  let '(b1, b2, b3) := b in
  (a1 < b1 \/ (a1 = b1 /\ (a2 < b2 \/ (a2 = b2 /\ a3 < b3))))%Z.

End Number.

(** [matchToDatabase] of the keyword-mapping-aware [ObjectContext] once
    more, line by line as in [Authoritative], with the scores computed in
    the arithmetic of Numbers.  The acceptance floor is decided by
    comparisons of sums of rounded products; at it the exact rationals of
    [Authoritative] and the doubles of the code can disagree. *)
Module OnNumbers.

(** One annotation of the vision provider, its score a Number. *)
Record Detection : Type := mkDetection {
  description : option string;
  name : option string;
  score : option Number.t
}.

(** What [matchToDatabase] returns. *)
Record MatchResult : Type := mkMatch {
  object : KnowledgeEntry;
  confidence : Number.t;
  detectedAs : string;
  matchScore : string
}.

Definition minConfidenceThreshold : Number.t := Number.tenths 3.

(** The body of [objTags.forEach(tag => ...)]. *)
Definition tagStep (label : string) (confidence : Number.t)
    (matchScore : Number.t) (tag : string) : Number.t :=
  if String.eqb tag label || String.eqb label tag then
    Number.add matchScore (Number.mul (Number.tenths 9) confidence)
  else if (Js.includes tag label || Js.includes label tag)
          && (Js.str_length label >? 3)%Z && (Js.str_length tag >? 3)%Z then
    Number.add matchScore (Number.mul (Number.tenths 5) confidence)
  else matchScore.

(** The body of [Object.entries(keywordMappings).forEach(...)]. *)
Definition keywordStep (label objName : string) (objTags : list string)
    (confidence : Number.t) (matchScore : Number.t)
    (entry : string * list string) : Number.t :=
  let '(key, synonyms) := entry in
  if existsb (fun synonym => Js.includes label synonym || Js.includes synonym label)
       synonyms then
    if Js.includes objName key || Js.array_includes objTags key then
      Number.add matchScore (Number.mul (Number.tenths 6) confidence)
    else matchScore
  else matchScore.

(** The value of [matchScore] when the guard of line 264 is reached, for
    the lower-cased [label], its [confidence] and the entry [obj]. *)
Definition pairScore (label : string) (confidence : Number.t)
    (obj : KnowledgeEntry) : Number.t :=
  let matchScore := Number.zero in
  let objName := Js.toLowerCase (obj_name obj) in
  let objTags := map Js.toLowerCase (obj_tags obj) in
  let objCategory := Js.toLowerCase (obj_category obj) in
  let matchScore :=
    if String.eqb objName label || String.eqb label objName then
      Number.add matchScore (Number.mul (Number.tenths 10) confidence)
    else if Js.includes objName label || Js.includes label objName then
      if (Js.str_length label >? 3)%Z && (Js.str_length objName >? 3)%Z then
        Number.add matchScore (Number.mul (Number.tenths 7) confidence)
      else matchScore
    else matchScore in
  let matchScore := fold_left (tagStep label confidence) objTags matchScore in
  let matchScore :=
    if Js.includes objCategory label || Js.includes label objCategory then
      Number.add matchScore (Number.mul (Number.tenths 3) confidence)
    else matchScore in
  fold_left (keywordStep label objName objTags confidence)
    Authoritative.keywordMappings matchScore.

(** The two variables the nested loops assign: [bestMatch], [highestScore]. *)
Definition MatchState : Type := (option MatchResult * Number.t)%type.

(** [(detection.description || detection.name || '').toLowerCase()] *)
Definition label_of (detection : Detection) : string :=
  Js.toLowerCase
    (Js.or_default (Js.or_str (description detection) (name detection)) "").

(** [detection.score || 0] *)
Definition score_or_0 (detection : Detection) : Number.t :=
  Number.or_0 (score detection).

(** The record of line 266 for an entry and the score of its pair. *)
Definition recordFor (label : string) (obj : KnowledgeEntry)
    (matchScore : Number.t) : MatchResult :=
  {| object := obj;
     confidence :=
       Number.Math_min
         (Number.Math_round (Number.mul matchScore (Number.of_Z 100)))
         (Number.of_Z 95);
     detectedAs := label;
     matchScore := Number.toFixed2 matchScore |}.

(** The body of [objectDatabase.forEach(obj => ...)]. *)
Definition visitEntry (label : string) (confidence : Number.t)
    (st : MatchState) (obj : KnowledgeEntry) : MatchState :=
  let '(bestMatch, highestScore) := st in
  let matchScore := pairScore label confidence obj in
  if Number.gtb matchScore highestScore
     && Number.gtb matchScore (Number.tenths 2) then
    (Some (recordFor label obj matchScore), matchScore)
  else st.

(** The test of line 207: the detection is not skipped. *)
Definition relevant (detection : Detection) : bool :=
  negb (Number.ltb (score_or_0 detection) minConfidenceThreshold).

Section WithDatabase.

Variable objectDatabase : list KnowledgeEntry.

(** The body of [detections.forEach(detection => ...)]. *)
Definition visitDetection (st : MatchState) (detection : Detection)
  : MatchState :=
  let label := label_of detection in
  let confidence := score_or_0 detection in
  if Number.ltb confidence minConfidenceThreshold then st
  else fold_left (visitEntry label confidence) objectDatabase st.

(** The state after both loops. *)
Definition scan (detections : list Detection) : MatchState :=
  fold_left visitDetection detections (None, Number.zero).

Definition matchToDatabase (detections : list Detection) : option MatchResult :=
  let '(bestMatch, highestScore) := scan detections in
  match bestMatch with
  | None => None
  | Some m => if Number.ltb highestScore (Number.tenths 4) then None else Some m
  end.

End WithDatabase.

(** The pairs of a relevant detection and an entry, in the order in which
    the nested [forEach] calls reach line 264. *)
Definition visitedPairs (db : list KnowledgeEntry) (ds : list Detection)
  : list (Detection * KnowledgeEntry) :=
  flat_map (fun d => map (fun obj => (d, obj)) db) (filter relevant ds).

(** The score of a visited pair, and the record made of it. *)
Definition scoreOf (p : Detection * KnowledgeEntry) : Number.t :=
  pairScore (label_of (fst p)) (score_or_0 (fst p)) (snd p).

Definition recordOf (p : Detection * KnowledgeEntry) : MatchResult :=
  recordFor (label_of (fst p)) (snd p) (scoreOf p).

(** The body of the inner loop, for a visited pair. *)
Definition visitPair (st : MatchState) (p : Detection * KnowledgeEntry)
  : MatchState :=
  visitEntry (label_of (fst p)) (score_or_0 (fst p)) st (snd p).

(** What the two loops have established once the pairs [l] are visited:
    either nothing is recorded, and then no pair of [l] is above both 0
    and 0.2; or the record is the one of a pair of [l] that is above 0.2
    and that no pair of [l] exceeds. *)
Definition settled (l : list (Detection * KnowledgeEntry)) (st : MatchState)
  : Prop :=
  (st = (None, Number.zero) /\
   forall q, In q l ->
     Number.gtb (scoreOf q) Number.zero = false \/
     Number.gtb (scoreOf q) (Number.tenths 2) = false)
  \/
  (exists p,
     In p l /\ st = (Some (recordOf p), scoreOf p) /\
     Number.gtb (scoreOf p) (Number.tenths 2) = true /\
     forall q, In q l -> Number.gtb (scoreOf q) (scoreOf p) = false).

(** The same, with the place of the recorded pair: it is the first of the
    pairs of [l] that no pair exceeds. *)
Definition firstBest (l : list (Detection * KnowledgeEntry)) (st : MatchState)
  : Prop :=
  (st = (None, Number.zero) /\
   forall q, In q l ->
     Number.gtb (scoreOf q) Number.zero = false \/
     Number.gtb (scoreOf q) (Number.tenths 2) = false)
  \/
  (exists before p after,
     l = (before ++ p :: after)%list /\
     st = (Some (recordOf p), scoreOf p) /\
     Number.gtb (scoreOf p) (Number.tenths 2) = true /\
     (forall q, In q before -> Number.leb (scoreOf p) (scoreOf q) = false) /\
     (forall q, In q after -> Number.gtb (scoreOf q) (scoreOf p) = false)).

(** A label annotation with the score [p / q]. *)
Definition label_detection (label : string) (p q : Z) : Detection :=
  mkDetection (Some label) None (Some (Number.lit p q)).

End OnNumbers.

(** An entry whose name and category contain the label "garden". *)
Definition gardenHose : KnowledgeEntry :=
  mkEntry "Garden Hose" "Garden" ["hose"; "watering"].

(** Decide a test of the goal whose value can be computed. *)
Ltac decide_if :=
  match goal with
  | |- context [if ?b then _ else _] =>
      let v := eval vm_compute in b in
      match v with
      | true => change b with true
      | false => change b with false
      end; cbv iota
  end.

(* ================================================================== *)
(** ** Facts about the primitives                                      *)
(* ================================================================== *)

Module JsFacts.

Lemma ltb_true (a b : Q) : Js.ltb a b = true <-> a < b.
Proof.
  unfold Js.ltb. rewrite negb_true_iff. split; intro H.
  - apply Qnot_le_lt. intro H'. apply Qle_bool_iff in H'. congruence.
  - destruct (Qle_bool b a) eqn:E; [|reflexivity].
    apply Qle_bool_iff in E. lra.
Qed.

Lemma ltb_false (a b : Q) : Js.ltb a b = false <-> b <= a.
Proof.
  unfold Js.ltb. rewrite negb_false_iff. apply Qle_bool_iff.
Qed.

Lemma gtb_true (a b : Q) : Js.gtb a b = true <-> b < a.
Proof. unfold Js.gtb. apply ltb_true. Qed.

Lemma gtb_false (a b : Q) : Js.gtb a b = false <-> a <= b.
Proof. unfold Js.gtb. apply ltb_false. Qed.

Lemma Math_round_mono (x y : Q) : x <= y -> (Js.Math_round x <= Js.Math_round y)%Z.
Proof.
  intro H. unfold Js.Math_round. apply Qfloor_resp_le. lra.
Qed.

Lemma Math_round_inject (z : Z) : Js.Math_round (inject_Z z) = z.
Proof.
  unfold Js.Math_round.
  assert (Hlo : (z <= Qfloor (inject_Z z + (1 # 2)))%Z).
  { rewrite <- (Qfloor_Z z) at 1. apply Qfloor_resp_le. lra. }
  assert (Hhi : (Qfloor (inject_Z z + (1 # 2)) < z + 1)%Z).
  { rewrite Zlt_Qlt.
    eapply Qle_lt_trans; [apply Qfloor_le|].
    rewrite inject_Z_plus. change (inject_Z 1) with 1. lra. }
  lia.
Qed.

Lemma Math_floor_bounds (x : Q) (lo hi : Z) :
  inject_Z lo <= x -> x < inject_Z hi ->
  (lo <= Js.Math_floor x < hi)%Z.
Proof.
  intros Hlo Hhi. unfold Js.Math_floor. split.
  - rewrite <- (Qfloor_Z lo). now apply Qfloor_resp_le.
  - rewrite Zlt_Qlt. eapply Qle_lt_trans; [apply Qfloor_le | exact Hhi].
Qed.

Lemma Math_floor_eq (x : Q) (k : Z) :
  Js.Math_floor x = k <-> inject_Z k <= x < inject_Z (k + 1).
Proof.
  unfold Js.Math_floor. split.
  - intros <-. split; [apply Qfloor_le | apply Qlt_floor].
  - intros [Hlo Hhi].
    pose proof (Math_floor_bounds x k (k + 1) Hlo Hhi) as B.
    unfold Js.Math_floor in B. lia.
Qed.

End JsFacts.

(* ================================================================== *)
(** ** Facts about the authoritative matcher                           *)
(* ================================================================== *)

Module MatcherFacts.

Import Authoritative.

Lemma visitEntry_cases label c bm hs obj :
  (pairScore label c obj <= hs \/ pairScore label c obj <= 0.2) /\
    visitEntry label c (bm, hs) obj = (bm, hs)
  \/
  (hs < pairScore label c obj /\ 0.2 < pairScore label c obj) /\
    visitEntry label c (bm, hs) obj =
      (Some (recordFor label obj (pairScore label c obj)), pairScore label c obj).
Proof.
  unfold visitEntry.
  destruct (Js.gtb (pairScore label c obj) hs) eqn:E1;
  destruct (Js.gtb (pairScore label c obj) 0.2) eqn:E2; simpl.
  - right. apply JsFacts.gtb_true in E1, E2. auto.
  - left. apply JsFacts.gtb_false in E2. auto.
  - left. apply JsFacts.gtb_false in E1. auto.
  - left. apply JsFacts.gtb_false in E1. auto.
Qed.

Lemma entries_loop label c objs : forall st,
  let st' := fold_left (visitEntry label c) objs st in
  snd st <= snd st' /\
  (forall obj, In obj objs ->
     pairScore label c obj <= snd st' \/ pairScore label c obj <= 0.2) /\
  (st' = st \/
   exists obj, In obj objs /\ 0.2 < pairScore label c obj /\
     st' = (Some (recordFor label obj (pairScore label c obj)),
            pairScore label c obj)).
Proof.
  induction objs as [|o objs IH]; intros st; cbv zeta; cbn [fold_left In].
  - repeat split; [lra | tauto | now left].
  - destruct st as [bm hs].
    specialize (IH (visitEntry label c (bm, hs) o)).
    cbv zeta in IH. destruct IH as (Hmono & Hdom & Hprov).
    destruct (visitEntry_cases label c bm hs o) as [[Hle Heq] | [[Hlt Hgt] Heq]];
      rewrite Heq in *; cbn [snd] in *.
    + split; [exact Hmono|]. split.
      * intros obj [<- | Hin]; [|now apply Hdom].
        destruct Hle as [Hle | Hle]; [left; lra | now right].
      * destruct Hprov as [-> | (obj & Hin & Hs & ->)]; [now left|].
        right. exists obj. auto.
    + split; [lra|]. split.
      * intros obj [<- | Hin]; [left; lra | now apply Hdom].
      * right. destruct Hprov as [-> | (obj & Hin & Hs & ->)].
        -- exists o. auto.
        -- exists obj. auto.
Qed.

Section WithDatabase.

Variable db : list KnowledgeEntry.

Lemma visitDetection_irrelevant st d :
  relevant d = false -> visitDetection db st d = st.
Proof.
  unfold relevant, visitDetection. intro H.
  apply negb_false_iff in H. now rewrite H.
Qed.

Lemma visitDetection_relevant st d :
  relevant d = true ->
  visitDetection db st d =
    fold_left (visitEntry (label_of d) (score_or_0 d)) db st.
Proof.
  unfold relevant, visitDetection. intro H.
  apply negb_true_iff in H. now rewrite H.
Qed.

Lemma detections_loop ds : forall st,
  let st' := fold_left (visitDetection db) ds st in
  snd st <= snd st' /\
  (forall d obj, In d ds -> relevant d = true -> In obj db ->
     pairScore (label_of d) (score_or_0 d) obj <= snd st' \/
     pairScore (label_of d) (score_or_0 d) obj <= 0.2) /\
  (st' = st \/
   exists d obj, In d ds /\ relevant d = true /\ In obj db /\
     0.2 < pairScore (label_of d) (score_or_0 d) obj /\
     st' = (Some (recordFor (label_of d) obj
                    (pairScore (label_of d) (score_or_0 d) obj)),
            pairScore (label_of d) (score_or_0 d) obj)).
Proof.
  induction ds as [|d0 ds IH]; intros st; cbv zeta; cbn [fold_left In].
  - repeat split; [lra | tauto | now left].
  - specialize (IH (visitDetection db st d0)). cbv zeta in IH.
    destruct IH as (Hmono & Hdom & Hprov).
    destruct (relevant d0) eqn:Hrel.
    + rewrite (visitDetection_relevant st d0 Hrel) in *.
      destruct (entries_loop (label_of d0) (score_or_0 d0) db st)
        as (Emono & Edom & Eprov).
      split; [lra|]. split.
      * intros d obj [<- | Hin] Hr Ho; [|now apply Hdom].
        destruct (Edom obj Ho) as [H | H]; [left; lra | now right].
      * destruct Hprov as [-> | (d & obj & Hin & Hr & Ho & Hs & ->)].
        -- destruct Eprov as [-> | (obj & Ho & Hs & ->)]; [now left|].
           right. exists d0, obj. auto 7.
        -- right. exists d, obj. auto 7.
    + rewrite (visitDetection_irrelevant st d0 Hrel) in *.
      split; [exact Hmono|]. split.
      * intros d obj [<- | Hin] Hr Ho; [congruence | now apply Hdom].
      * destruct Hprov as [-> | (d & obj & Hin & Hr & Ho & Hs & ->)];
          [now left|].
        right. exists d, obj. auto 7.
Qed.

Lemma scan_recorded ds : recorded db ds (scan db ds).
Proof.
  unfold scan.
  destruct (detections_loop ds (None, 0)) as (_ & _ & Hprov).
  destruct Hprov as [-> | (d & obj & Hin & Hr & Ho & Hs & ->)]; simpl.
  - reflexivity.
  - exists d, obj. repeat split; auto.
Qed.

Lemma scan_dominating ds : dominating db ds (scan db ds).
Proof.
  unfold scan, dominating.
  destruct (detections_loop ds (None, 0)) as (_ & Hdom & _). exact Hdom.
Qed.

(** What [matchToDatabase] returns, in terms of the final state. *)
Lemma matchToDatabase_Some ds m :
  matchToDatabase db ds = Some m <->
  exists hs, scan db ds = (Some m, hs) /\ 0.4 <= hs.
Proof.
  unfold matchToDatabase. destruct (scan db ds) as [[m'|] hs].
  - destruct (Js.ltb hs 0.4) eqn:E; split.
    + discriminate.
    + intros (hs' & [= -> ->] & H). apply JsFacts.ltb_true in E. lra.
    + intros [= ->]. exists hs. split; [reflexivity|].
      now apply JsFacts.ltb_false in E.
    + intros (hs' & [= -> ->] & H). reflexivity.
  - split; [discriminate | intros (hs' & [=] & _)].
Qed.

End WithDatabase.

End MatcherFacts.

(* ================================================================== *)
(** ** Properties of the authoritative matcher                         *)
(* ================================================================== *)

Import Authoritative.

Lemma filter_relevant_loop db ds : forall st,
  fold_left (visitDetection db) ds st =
  fold_left (visitDetection db) (filter relevant ds) st.
Proof.
  induction ds as [|d ds IH]; intros st; cbn [filter fold_left].
  - reflexivity.
  - destruct (relevant d) eqn:Hrel; cbn [fold_left].
    + apply IH.
    + rewrite (MatcherFacts.visitDetection_irrelevant db st d Hrel). apply IH.
Qed.


Lemma relevant_true_iff d : relevant d = true <-> 0.3 <= score_or_0 d.
Proof.
  unfold relevant. rewrite negb_true_iff. apply JsFacts.ltb_false.
Qed.

Lemma matchToDatabase_filter_relevant db ds :
  matchToDatabase db ds = matchToDatabase db (filter relevant ds).
Proof.
  unfold matchToDatabase, scan. now rewrite filter_relevant_loop.
Qed.

(** The winning pair: what a returned [MatchResult] is made of. *)
Lemma matchToDatabase_winner db ds m :
  matchToDatabase db ds = Some m ->
  exists d obj,
    In d ds /\ relevant d = true /\ In obj db /\
    0.4 <= pairScore (label_of d) (score_or_0 d) obj /\
    m = recordFor (label_of d) obj
          (pairScore (label_of d) (score_or_0 d) obj) /\
    (forall d' obj', In d' ds -> relevant d' = true -> In obj' db ->
       pairScore (label_of d') (score_or_0 d') obj'
         <= pairScore (label_of d) (score_or_0 d) obj).
Proof.
  intro H. apply MatcherFacts.matchToDatabase_Some in H.
  destruct H as (hs & Hscan & Hfloor).
  pose proof (MatcherFacts.scan_recorded db ds) as Hrec.
  pose proof (MatcherFacts.scan_dominating db ds) as Hdom.
  rewrite Hscan in Hrec, Hdom. cbn [recorded] in Hrec.
  destruct Hrec as (d & obj & Hd & Hrel & Hobj & Hhs & Hgt & Hm).
  exists d, obj. subst hs. repeat split; auto.
  intros d' obj' Hd' Hrel' Hobj'.
  destruct (Hdom d' obj' Hd' Hrel' Hobj') as [Hle | Hle]; cbn [snd] in *; lra.
Qed.

(** C3. Whenever the matcher returns a result, its confidence is an integer
    between 0 and 95: it is [round(score * 100)] of the winning pair's
    score, cut off at 95. *)
Theorem matchToDatabase_confidence_clamped db ds m :
  matchToDatabase db ds = Some m ->
  (0 <= confidence m <= 95)%Z /\
  exists d obj,
    In d ds /\ In obj db /\
    confidence m =
      Z.min (Js.Math_round
               (pairScore (label_of d) (score_or_0 d) obj * 100)) 95.
Proof.
  intro H. apply matchToDatabase_winner in H.
  destruct H as (d & obj & Hd & _ & Hobj & Hfloor & -> & _).
  cbn [recordFor confidence]. unfold Js.Math_min. split.
  - split; [|apply Z.le_min_r].
    apply Z.min_glb; [|lia].
    change 0%Z with (Js.Math_round 0).
    apply JsFacts.Math_round_mono. lra.
  - exists d, obj. auto.
Qed.

(** A raw score of 1.89 is reported as confidence 95. *)
Lemma matchToDatabase_confidence_clamped_witness :
  matchToDatabase [smartphone] [label_detection "mobile phone" 0.9]
    = Some (mkMatch smartphone 95 "mobile phone" "1.89") /\
  (0 <= 95 <= 95)%Z.
Proof.
  split; [reflexivity|].
  exact (proj1 (matchToDatabase_confidence_clamped
                  [smartphone] [label_detection "mobile phone" 0.9]
                  (mkMatch smartphone 95 "mobile phone" "1.89") eq_refl)).
Defined.

(* ================================================================== *)
(** ** The order of Numbers                                            *)
(* ================================================================== *)

Module NumberFacts.

Import Number.

Lemma ltb_key x y :
  ltb x y = true <->
  exists a b, key x = Some a /\ key y = Some b /\ lexlt a b.
Proof.
  unfold ltb, SFltb.
  destruct x as [[]|[]| |[] m1 e1], y as [[]|[]| |[] m2 e2];
    cbn [SFcompare key];
    try (split; [discriminate
                | intros (a & b & [= <-] & [= <-] & H); cbn in H; lia]);
    try (split; [discriminate | intros (a & b & H & _); discriminate H]);
    try (split; [discriminate | intros (a & b & _ & H & _); discriminate H]);
    try (split; [intros _; do 2 eexists; repeat split; cbn; lia | reflexivity]).
  - change (PosDef.Pos.compare_cont Eq m1 m2) with (Pos.compare m1 m2).
    destruct (Z.compare_spec e1 e2) as [He | He | He];
      [destruct (Pos.compare_spec m1 m2) as [Hm | Hm | Hm]| |]; cbn [CompOpp];
      (split;
       [try discriminate; intros _; do 2 eexists; repeat split; cbn; lia
       | try reflexivity;
         intros (a & b & [= <-] & [= <-] & H); cbn in H; lia]).
  - change (PosDef.Pos.compare_cont Eq m1 m2) with (Pos.compare m1 m2).
    destruct (Z.compare_spec e1 e2) as [He | He | He];
      [destruct (Pos.compare_spec m1 m2) as [Hm | Hm | Hm]| |]; cbn [CompOpp];
      (split;
       [try discriminate; intros _; do 2 eexists; repeat split; cbn; lia
       | try reflexivity;
         intros (a & b & [= <-] & [= <-] & H); cbn in H; lia]).
Qed.

Lemma leb_key x y :
  leb x y = true <->
  exists a b, key x = Some a /\ key y = Some b /\ ~ lexlt b a.
Proof.
  unfold leb, SFleb.
  destruct x as [[]|[]| |[] m1 e1], y as [[]|[]| |[] m2 e2];
    cbn [SFcompare key];
    try (split; [discriminate
                | intros (a & b & [= <-] & [= <-] & H); cbn in H; lia]);
    try (split; [discriminate | intros (a & b & H & _); discriminate H]);
    try (split; [discriminate | intros (a & b & _ & H & _); discriminate H]);
    try (split; [intros _; do 2 eexists; repeat split; cbn; lia | reflexivity]).
  - change (PosDef.Pos.compare_cont Eq m1 m2) with (Pos.compare m1 m2).
    destruct (Z.compare_spec e1 e2) as [He | He | He];
      [destruct (Pos.compare_spec m1 m2) as [Hm | Hm | Hm]| |]; cbn [CompOpp];
      (split;
       [try discriminate; intros _; do 2 eexists; repeat split; cbn; lia
       | try reflexivity;
         intros (a & b & [= <-] & [= <-] & H); cbn in H; lia]).
  - change (PosDef.Pos.compare_cont Eq m1 m2) with (Pos.compare m1 m2).
    destruct (Z.compare_spec e1 e2) as [He | He | He];
      [destruct (Pos.compare_spec m1 m2) as [Hm | Hm | Hm]| |]; cbn [CompOpp];
      (split;
       [try discriminate; intros _; do 2 eexists; repeat split; cbn; lia
       | try reflexivity;
         intros (a & b & [= <-] & [= <-] & H); cbn in H; lia]).
Qed.

Lemma gtb_ltb x y : gtb x y = ltb y x.
Proof. reflexivity. Qed.

Lemma key_nan x : key x = None <-> is_nan x = true.
Proof. destruct x as [[]|[]| |[] m e]; cbn; split; congruence. Qed.

Lemma ltb_irrefl x : ltb x x = false.
Proof.
  destruct (ltb x x) eqn:E; [|reflexivity].
  apply ltb_key in E.
  destruct E as ([[a1 a2] a3] & [[b1 b2] b3] & Ha & Hb & H).
  rewrite Ha in Hb. injection Hb as <- <- <-. cbn in H. lia.
Qed.

Lemma ltb_trans x y z : ltb x y = true -> ltb y z = true -> ltb x z = true.
Proof.
  intros H1 H2. apply ltb_key in H1, H2. apply ltb_key.
  destruct H1 as ([[a1 a2] a3] & [[b1 b2] b3] & Ha & Hb & H1).
  destruct H2 as ([[b1' b2'] b3'] & [[c1 c2] c3] & Hb' & Hc & H2).
  rewrite Hb in Hb'. injection Hb' as <- <- <-.
  do 2 eexists. repeat split; [exact Ha | exact Hc |]. cbn in *. lia.
Qed.

Lemma gtb_trans x y z : gtb x y = true -> gtb y z = true -> gtb x z = true.
Proof. rewrite !gtb_ltb. intros H1 H2. exact (ltb_trans _ _ _ H2 H1). Qed.

Lemma ltb_leb_trans x y z : ltb x y = true -> leb y z = true -> ltb x z = true.
Proof.
  intros H1 H2. apply ltb_key in H1. apply leb_key in H2. apply ltb_key.
  destruct H1 as ([[a1 a2] a3] & [[b1 b2] b3] & Ha & Hb & H1).
  destruct H2 as ([[b1' b2'] b3'] & [[c1 c2] c3] & Hb' & Hc & H2).
  rewrite Hb in Hb'. injection Hb' as <- <- <-.
  do 2 eexists. repeat split; [exact Ha | exact Hc |]. cbn in *. lia.
Qed.

Lemma ltb_not_nan x y : ltb x y = true -> is_nan x = false /\ is_nan y = false.
Proof.
  intro H. apply ltb_key in H. destruct H as (a & b & Ha & Hb & _).
  destruct x, y; cbn in *; try discriminate; auto.
Qed.

Lemma ltb_leb x y : ltb x y = true -> leb x y = true.
Proof.
  intro H. apply ltb_key in H. apply leb_key.
  destruct H as ([[a1 a2] a3] & [[b1 b2] b3] & Ha & Hb & H).
  do 2 eexists. repeat split; [exact Ha | exact Hb |]. cbn in *. lia.
Qed.

Lemma leb_not_ltb x y : leb x y = true -> ltb y x = false.
Proof.
  intro H. destruct (ltb y x) eqn:E; [|reflexivity]. exfalso.
  apply leb_key in H. apply ltb_key in E.
  destruct H as (a & b & Ha & Hb & H).
  destruct E as (b' & a' & Hb' & Ha' & E).
  rewrite Ha in Ha'. rewrite Hb in Hb'.
  injection Ha' as <-. injection Hb' as <-. contradiction.
Qed.

(** Two Numbers, neither of them [NaN], are comparable. *)
Lemma not_ltb_leb x y :
  is_nan x = false -> is_nan y = false -> ltb x y = false -> leb y x = true.
Proof.
  intros Hx Hy H. apply leb_key.
  destruct (key x) as [a|] eqn:Ha; [|apply key_nan in Ha; congruence].
  destruct (key y) as [b|] eqn:Hb; [|apply key_nan in Hb; congruence].
  exists b, a. repeat split. intro L.
  assert (ltb x y = true) by (apply ltb_key; eauto). congruence.
Qed.

End NumberFacts.

(* ================================================================== *)
(** ** The acceptance floor, in the arithmetic of the code             *)
(* ================================================================== *)

Module OnNumbersFacts.

Import OnNumbers.

Lemma entries_as_pairs d db : forall st,
  fold_left visitPair (map (fun obj => (d, obj)) db) st =
  fold_left (visitEntry (label_of d) (score_or_0 d)) db st.
Proof.
  induction db as [|obj db IH]; intro st; cbn [map fold_left]; [reflexivity|].
  now rewrite IH.
Qed.

Lemma scan_as_pairs db ds : forall st,
  fold_left (visitDetection db) ds st =
  fold_left visitPair (visitedPairs db ds) st.
Proof.
  unfold visitedPairs.
  induction ds as [|d ds IH]; intro st; cbn [fold_left filter]; [reflexivity|].
  rewrite IH.
  assert (Hrel : relevant d
                 = negb (Number.ltb (score_or_0 d) minConfidenceThreshold))
    by reflexivity.
  rewrite Hrel. unfold visitDetection.
  destruct (Number.ltb (score_or_0 d) minConfidenceThreshold); cbn [negb].
  - reflexivity.
  - cbn [flat_map]. now rewrite fold_left_app, entries_as_pairs.
Qed.

Lemma in_visitedPairs db ds d obj :
  In (d, obj) (visitedPairs db ds) <->
  In d ds /\ relevant d = true /\ In obj db.
Proof.
  unfold visitedPairs. rewrite in_flat_map. split.
  - intros (d' & Hd' & Hp). apply filter_In in Hd'.
    apply in_map_iff in Hp. destruct Hp as (obj' & [= <- <-] & Hobj).
    tauto.
  - intros (Hd & Hrel & Hobj). exists d. split.
    + apply filter_In. tauto.
    + apply in_map_iff. now exists obj.
Qed.

Lemma visitPair_cases st p :
  (Number.gtb (scoreOf p) (snd st) = true /\
   Number.gtb (scoreOf p) (Number.tenths 2) = true /\
   visitPair st p = (Some (recordOf p), scoreOf p))
  \/
  ((Number.gtb (scoreOf p) (snd st) = false \/
    Number.gtb (scoreOf p) (Number.tenths 2) = false) /\
   visitPair st p = st).
Proof.
  destruct st as [bm hs]. unfold visitPair, visitEntry. fold (scoreOf p).
  cbn [snd].
  destruct (Number.gtb (scoreOf p) hs);
    destruct (Number.gtb (scoreOf p) (Number.tenths 2)); cbn [andb]; auto.
Qed.

(** After any number of visited pairs: either nothing is recorded, and
    then no visited pair is above both 0 and 0.2; or the record is the one
    of a visited pair that is above 0.2 and that no visited pair exceeds. *)
Lemma pairs_loop (l : list (Detection * KnowledgeEntry)) :
  settled l (fold_left visitPair l (None, Number.zero)).
Proof.
  induction l as [|r l IH] using rev_ind.
  - left. split; [reflexivity | intros q []].
  - rewrite fold_left_app. cbn [fold_left].
    destruct IH as [[-> Hall] | (p & Hp & -> & Hp02 & Hall)].
    + destruct (visitPair_cases (None, Number.zero) r)
        as [(H0 & H02 & ->) | (Hno & ->)]; cbn [snd] in *.
      * right. exists r. split; [apply in_or_app; right; now left|].
        split; [reflexivity|]. split; [exact H02|].
        intros q Hq. apply in_app_or in Hq.
        destruct Hq as [Hq | [<- | []]]; [|apply NumberFacts.ltb_irrefl].
        destruct (Number.gtb (scoreOf q) (scoreOf r)) eqn:E; [|reflexivity].
        destruct (Hall q Hq) as [Hq0 | Hq02].
        -- rewrite (NumberFacts.gtb_trans _ _ _ E H0) in Hq0. discriminate.
        -- rewrite (NumberFacts.gtb_trans _ _ _ E H02) in Hq02. discriminate.
      * left. split; [reflexivity|].
        intros q Hq. apply in_app_or in Hq.
        destruct Hq as [Hq | [<- | []]]; [now apply Hall | exact Hno].
    + destruct (visitPair_cases (Some (recordOf p), scoreOf p) r)
        as [(Hgt & H02 & ->) | (Hno & ->)]; cbn [snd] in *.
      * right. exists r. split; [apply in_or_app; right; now left|].
        split; [reflexivity|]. split; [exact H02|].
        intros q Hq. apply in_app_or in Hq.
        destruct Hq as [Hq | [<- | []]]; [|apply NumberFacts.ltb_irrefl].
        destruct (Number.gtb (scoreOf q) (scoreOf r)) eqn:E; [|reflexivity].
        rewrite <- (Hall q Hq). symmetry.
        exact (NumberFacts.gtb_trans _ _ _ E Hgt).
      * right. exists p. split; [apply in_or_app; now left|].
        split; [reflexivity|]. split; [exact Hp02|].
        intros q Hq. apply in_app_or in Hq.
        destruct Hq as [Hq | [<- | []]]; [now apply Hall|].
        destruct Hno as [Hno | Hno]; [exact Hno|].
        destruct (Number.gtb (scoreOf r) (scoreOf p)) eqn:E; [|reflexivity].
        rewrite (NumberFacts.gtb_trans _ _ _ E Hp02) in Hno. discriminate.
Qed.

Lemma pairs_loop_first (l : list (Detection * KnowledgeEntry)) :
  firstBest l (fold_left visitPair l (None, Number.zero)).
Proof.
  induction l as [|r l IH] using rev_ind.
  - left. split; [reflexivity | intros q []].
  - rewrite fold_left_app. cbn [fold_left].
    destruct IH as [[-> Hall]
                   | (before & p & after & Hl & -> & Hp02 & Hbefore & Hafter)].
    + destruct (visitPair_cases (None, Number.zero) r)
        as [(H0 & H02 & ->) | (Hno & ->)]; cbn [snd] in *.
      * right. exists l, r, []. split; [reflexivity|].
        split; [reflexivity|]. split; [exact H02|].
        split; [|intros q []].
        intros q Hq.
        destruct (Number.leb (scoreOf r) (scoreOf q)) eqn:E; [|reflexivity].
        rewrite NumberFacts.gtb_ltb in H0, H02.
        pose proof (NumberFacts.ltb_leb_trans _ _ _ H0 E) as E0.
        pose proof (NumberFacts.ltb_leb_trans _ _ _ H02 E) as E02.
        destruct (Hall q Hq) as [H | H]; rewrite NumberFacts.gtb_ltb in H;
          congruence.
      * left. split; [reflexivity|].
        intros q Hq. apply in_app_or in Hq.
        destruct Hq as [Hq | [<- | []]]; [now apply Hall | exact Hno].
    + assert (Hall : forall q, In q l ->
                Number.gtb (scoreOf q) (scoreOf p) = false).
      { intros q Hq. rewrite Hl in Hq. apply in_app_or in Hq.
        destruct Hq as [Hq | [<- | Hq]].
        - specialize (Hbefore q Hq). rewrite NumberFacts.gtb_ltb.
          destruct (Number.ltb (scoreOf p) (scoreOf q)) eqn:E; [|reflexivity].
          apply NumberFacts.ltb_leb in E. congruence.
        - apply NumberFacts.ltb_irrefl.
        - now apply Hafter. }
      destruct (visitPair_cases (Some (recordOf p), scoreOf p) r)
        as [(Hgt & H02 & ->) | (Hno & ->)]; cbn [snd] in *.
      * right. exists l, r, []. split; [reflexivity|].
        split; [reflexivity|]. split; [exact H02|].
        split; [|intros q []].
        intros q Hq.
        destruct (Number.leb (scoreOf r) (scoreOf q)) eqn:E; [|reflexivity].
        rewrite NumberFacts.gtb_ltb in Hgt.
        pose proof (NumberFacts.ltb_leb_trans _ _ _ Hgt E) as E'.
        specialize (Hall q Hq). rewrite NumberFacts.gtb_ltb in Hall.
        congruence.
      * right. exists before, p, (after ++ [r])%list.
        split; [rewrite Hl, <- app_assoc; reflexivity|].
        split; [reflexivity|]. split; [exact Hp02|].
        split; [exact Hbefore|].
        intros q Hq. apply in_app_or in Hq.
        destruct Hq as [Hq | [<- | []]]; [now apply Hafter|].
        destruct Hno as [Hno | Hno]; [exact Hno|].
        destruct (Number.gtb (scoreOf r) (scoreOf p)) eqn:E; [|reflexivity].
        rewrite (NumberFacts.gtb_trans _ _ _ E Hp02) in Hno. discriminate.
Qed.

Lemma scan_settled db ds : settled (visitedPairs db ds) (scan db ds).
Proof. unfold scan. rewrite scan_as_pairs. apply pairs_loop. Qed.

(** A returned record is the one of a visited pair that scores at least
    0.4 and that no visited pair exceeds. *)
Lemma returned_record db ds m :
  matchToDatabase db ds = Some m ->
  exists p,
    In p (visitedPairs db ds) /\ m = recordOf p /\
    Number.leb (Number.tenths 4) (scoreOf p) = true /\
    forall q, In q (visitedPairs db ds) ->
      Number.gtb (scoreOf q) (scoreOf p) = false.
Proof.
  unfold matchToDatabase.
  destruct (scan_settled db ds) as [[-> _] | (p & Hp & -> & Hp02 & Hall)];
    [discriminate|].
  destruct (Number.ltb (scoreOf p) (Number.tenths 4)) eqn:E; [discriminate|].
  intros [= <-]. exists p. repeat split; auto.
  apply NumberFacts.not_ltb_leb; [| reflexivity | exact E].
  apply (NumberFacts.ltb_not_nan _ _ Hp02).
Qed.

(** A visited pair that scores at least 0.4 forces a result. *)
Lemma good_pair_forces_result db ds p :
  In p (visitedPairs db ds) ->
  Number.leb (Number.tenths 4) (scoreOf p) = true ->
  exists m, matchToDatabase db ds = Some m.
Proof.
  intros Hp Hgood. unfold matchToDatabase.
  assert (H0 : Number.gtb (scoreOf p) Number.zero = true).
  { rewrite NumberFacts.gtb_ltb.
    apply (NumberFacts.ltb_leb_trans _ (Number.tenths 4));
      [reflexivity | exact Hgood]. }
  assert (H02 : Number.gtb (scoreOf p) (Number.tenths 2) = true).
  { rewrite NumberFacts.gtb_ltb.
    apply (NumberFacts.ltb_leb_trans _ (Number.tenths 4));
      [reflexivity | exact Hgood]. }
  destruct (scan_settled db ds) as [[-> Hall] | (w & Hw & -> & Hw02 & Hall)].
  - exfalso. destruct (Hall p Hp) as [H | H]; congruence.
  - destruct (Number.ltb (scoreOf w) (Number.tenths 4)) eqn:E;
      [|now eexists].
    exfalso. specialize (Hall p Hp). rewrite NumberFacts.gtb_ltb in Hall.
    rewrite (NumberFacts.ltb_leb_trans _ _ _ E Hgood) in Hall. discriminate.
Qed.

End OnNumbersFacts.

(** C2. In the arithmetic of the code: when the score of every pair of a
    relevant detection and an entry is strictly less than 0.4, the matcher
    returns no match.  It returns a match exactly when some such pair
    scores at least 0.4; the match is then the record of a pair that
    scores at least 0.4 and that no pair exceeds.  In particular a best
    score of exactly 0.4 is accepted. *)
Theorem acceptance_floor db ds :
  let score d obj :=
    OnNumbers.pairScore (OnNumbers.label_of d) (OnNumbers.score_or_0 d) obj in
  let visited d obj :=
    In d ds /\ OnNumbers.relevant d = true /\ In obj db in
  ((forall d obj, visited d obj ->
      Number.ltb (score d obj) (Number.tenths 4) = true) ->
   OnNumbers.matchToDatabase db ds = None) /\
  ((exists m, OnNumbers.matchToDatabase db ds = Some m) <->
   (exists d obj,
      visited d obj /\ Number.leb (Number.tenths 4) (score d obj) = true)) /\
  (forall m,
     OnNumbers.matchToDatabase db ds = Some m ->
     exists d obj,
       visited d obj /\
       m = OnNumbers.recordFor (OnNumbers.label_of d) obj (score d obj) /\
       Number.leb (Number.tenths 4) (score d obj) = true /\
       forall d' obj', visited d' obj' ->
         Number.gtb (score d' obj') (score d obj) = false) /\
  (forall d obj,
     visited d obj -> score d obj = Number.tenths 4 ->
     exists m, OnNumbers.matchToDatabase db ds = Some m).
Proof.
  intros score visited.
  assert (Hsome : forall m,
            OnNumbers.matchToDatabase db ds = Some m ->
            exists d obj,
              visited d obj /\
              m = OnNumbers.recordFor (OnNumbers.label_of d) obj (score d obj) /\
              Number.leb (Number.tenths 4) (score d obj) = true /\
              forall d' obj', visited d' obj' ->
                Number.gtb (score d' obj') (score d obj) = false).
  { intros m Hm. apply OnNumbersFacts.returned_record in Hm.
    destruct Hm as ([d obj] & Hp & -> & Hfloor & Hall).
    exists d, obj. split; [now apply OnNumbersFacts.in_visitedPairs|].
    split; [reflexivity|]. split; [exact Hfloor|].
    intros d' obj' Hv. apply (Hall (d', obj')).
    now apply OnNumbersFacts.in_visitedPairs. }
  assert (Hgood : forall d obj,
            visited d obj ->
            Number.leb (Number.tenths 4) (score d obj) = true ->
            exists m, OnNumbers.matchToDatabase db ds = Some m).
  { intros d obj Hv Hfloor.
    apply (OnNumbersFacts.good_pair_forces_result db ds (d, obj));
      [now apply OnNumbersFacts.in_visitedPairs | exact Hfloor]. }
  split; [|split; [|split]].
  - intro Hlow.
    destruct (OnNumbers.matchToDatabase db ds) as [m|] eqn:Hm; [|reflexivity].
    destruct (Hsome m eq_refl) as (d & obj & Hv & _ & Hfloor & _).
    apply NumberFacts.leb_not_ltb in Hfloor.
    rewrite (Hlow d obj Hv) in Hfloor. discriminate.
  - split.
    + intros [m Hm]. destruct (Hsome m Hm) as (d & obj & Hv & _ & Hfloor & _).
      now exists d, obj.
    + intros (d & obj & Hv & Hfloor). now apply (Hgood d obj).
  - exact Hsome.
  - intros d obj Hv Heq. apply (Hgood d obj Hv). rewrite Heq. reflexivity.
Qed.

(** "garden" at 0.4 against the garden hose: the pair scores
    0.7 * 0.4 + 0.3 * 0.4, which in doubles is 0.39999999999999997, and no
    match is returned; "Hammer" at 0.4 against the hammer scores exactly
    0.4, and a match is returned, with confidence 40. *)
Lemma acceptance_floor_witness :
  OnNumbers.matchToDatabase [gardenHose] [OnNumbers.label_detection "garden" 4 10]
    = None /\
  exists m,
    OnNumbers.matchToDatabase [hammer] [OnNumbers.label_detection "Hammer" 4 10]
      = Some m /\
    OnNumbers.confidence m = Number.of_Z 40 /\
    OnNumbers.matchScore m = "0.40".
Proof.
  split.
  - apply (proj1 (acceptance_floor [gardenHose]
                    [OnNumbers.label_detection "garden" 4 10])).
    intros d obj (Hd & _ & Hobj).
    destruct Hd as [<- | []]. destruct Hobj as [<- | []].
    vm_compute. reflexivity.
  - assert (Hv : In (OnNumbers.label_detection "Hammer" 4 10)
                   [OnNumbers.label_detection "Hammer" 4 10] /\
                 OnNumbers.relevant (OnNumbers.label_detection "Hammer" 4 10)
                   = true /\
                 In hammer [hammer])
      by (repeat split; left; reflexivity).
    assert (Hs : OnNumbers.pairScore
                   (OnNumbers.label_of (OnNumbers.label_detection "Hammer" 4 10))
                   (OnNumbers.score_or_0 (OnNumbers.label_detection "Hammer" 4 10))
                   hammer
                 = Number.tenths 4)
      by (vm_compute; reflexivity).
    destruct (proj2 (proj2 (proj2 (acceptance_floor [hammer]
                [OnNumbers.label_detection "Hammer" 4 10])))
                (OnNumbers.label_detection "Hammer" 4 10) hammer Hv Hs)
      as [m Hm].
    exists m. split; [exact Hm|].
    vm_compute in Hm. injection Hm as <-. split; vm_compute; reflexivity.
Defined.

(** C2, as the spec words it, does not hold: the score of the only pair is
    exactly 0.4, so no pair scores more than 0.4, and a match is
    returned, with confidence 40. *)
Lemma score_0_4_is_accepted :
  let db := [hammer] in
  let ds := [OnNumbers.label_detection "Hammer" 4 10] in
  ~ ((forall d obj,
        In d ds -> OnNumbers.relevant d = true -> In obj db ->
        Number.leb
          (OnNumbers.pairScore (OnNumbers.label_of d) (OnNumbers.score_or_0 d) obj)
          (Number.tenths 4) = true) ->
     OnNumbers.matchToDatabase db ds = None).
Proof.
  intros db ds H.
  assert (Hnone : OnNumbers.matchToDatabase db ds = None).
  { apply H. intros d obj [<- | []] _ [<- | []]. vm_compute. reflexivity. }
  vm_compute in Hnone. discriminate Hnone.
Qed.

(** X1. In the arithmetic of the code, a returned match is the record of
    the first pair, in the order of the nested loops over the relevant
    detections and the entries, that no pair exceeds: it scores at least
    0.4, no pair visited before it scores as much, and no pair visited
    after it scores more. *)
Theorem matchToDatabase_first_maximum db ds m :
  OnNumbers.matchToDatabase db ds = Some m ->
  exists before p after,
    OnNumbers.visitedPairs db ds = (before ++ p :: after)%list /\
    m = OnNumbers.recordOf p /\
    Number.leb (Number.tenths 4) (OnNumbers.scoreOf p) = true /\
    (forall q, In q before ->
       Number.leb (OnNumbers.scoreOf p) (OnNumbers.scoreOf q) = false) /\
    (forall q, In q after ->
       Number.gtb (OnNumbers.scoreOf q) (OnNumbers.scoreOf p) = false).
Proof.
  unfold OnNumbers.matchToDatabase, OnNumbers.scan.
  rewrite OnNumbersFacts.scan_as_pairs.
  destruct (OnNumbersFacts.pairs_loop_first (OnNumbers.visitedPairs db ds))
    as [[-> _] | (before & p & after & Hl & -> & Hp02 & Hbefore & Hafter)];
    [discriminate|].
  destruct (Number.ltb (OnNumbers.scoreOf p) (Number.tenths 4)) eqn:E;
    [discriminate|].
  intros [= <-]. exists before, p, after.
  split; [exact Hl|]. split; [reflexivity|].
  split; [|split; [exact Hbefore | exact Hafter]].
  apply NumberFacts.not_ltb_leb; [| reflexivity | exact E].
  apply (NumberFacts.ltb_not_nan _ _ Hp02).
Qed.

(** Two entries named "Hammer" tie at 0.9: the first one of the database
    is returned, and the pair of the second one comes after it. *)
Lemma matchToDatabase_first_maximum_witness :
  let db := [hammer; mkEntry "hammer" "Garden" []] in
  let ds := [OnNumbers.label_detection "Hammer" 9 10] in
  exists m before p after,
    OnNumbers.matchToDatabase db ds = Some m /\
    OnNumbers.object m = hammer /\
    OnNumbers.visitedPairs db ds = (before ++ p :: after)%list /\
    m = OnNumbers.recordOf p /\
    (forall q, In q after ->
       Number.gtb (OnNumbers.scoreOf q) (OnNumbers.scoreOf p) = false).
Proof.
  intros db ds.
  destruct (OnNumbers.matchToDatabase db ds) as [m|] eqn:Hm;
    [|vm_compute in Hm; discriminate Hm].
  destruct (matchToDatabase_first_maximum db ds m Hm)
    as (before & p & after & Hl & Hrec & _ & _ & Hafter).
  exists m, before, p, after.
  split; [reflexivity|].
  split; [vm_compute in Hm; injection Hm as <-; reflexivity|].
  split; [exact Hl|]. split; [exact Hrec | exact Hafter].
Defined.



(** C10. The matcher is a total function of the detection list.  A
    detection with neither description nor name has the empty label; one
    without a score has confidence 0 and is skipped; a list of detections
    that all lack a score, and the empty list, give no match. *)
Theorem matchToDatabase_malformed db :
  (forall s, label_of (mkDetection None None s) = "") /\
  (forall desc nm st,
     score_or_0 (mkDetection desc nm None) = 0 /\
     visitDetection db st (mkDetection desc nm None) = st) /\
  (forall ds, (forall d, In d ds -> score d = None) ->
     matchToDatabase db ds = None) /\
  matchToDatabase db [] = None.
Proof.
  split; [|split; [|split]].
  - reflexivity.
  - intros desc nm st. split; reflexivity.
  - intros ds Hall.
    rewrite matchToDatabase_filter_relevant.
    replace (filter relevant ds) with (@nil Detection); [reflexivity|].
    induction ds as [|d ds IH]; [reflexivity|].
    cbn [filter].
    assert (Hd : relevant d = false).
    { unfold relevant, score_or_0. rewrite (Hall d (or_introl eq_refl)).
      reflexivity. }
    rewrite Hd. apply IH. intros d' Hin. apply Hall. now right.
  - reflexivity.
Qed.

(** Two detections without a score, one of them without any label. *)
Lemma matchToDatabase_malformed_witness :
  matchToDatabase [hammer; smartphone]
    [mkDetection (Some "Hammer") None None; mkDetection None None None] = None.
Proof.
  apply (proj1 (proj2 (proj2 (matchToDatabase_malformed [hammer; smartphone])))).
  intros d [<- | [<- | []]]; reflexivity.
Defined.

(** *** The "mobile phone" scenario *)

Lemma tagStep_mono label c x tag : 0 <= c -> x <= tagStep label c x tag.
Proof.
  intro Hc. unfold tagStep.
  destruct (String.eqb tag label || String.eqb label tag); [lra|].
  destruct ((Js.includes tag label || Js.includes label tag)
            && (Js.str_length label >? 3)%Z && (Js.str_length tag >? 3)%Z); lra.
Qed.

Lemma tag_loop_mono label c tags : forall x,
  0 <= c -> x <= fold_left (tagStep label c) tags x.
Proof.
  induction tags as [|t tags IH]; intros x Hc; cbn [fold_left]; [lra|].
  pose proof (tagStep_mono label c x t Hc).
  specialize (IH (tagStep label c x t) Hc). lra.
Qed.

Lemma tagStep_exact label c x : tagStep label c x label = x + 0.9 * c.
Proof.
  unfold tagStep. now rewrite String.eqb_refl.
Qed.

Lemma tag_loop_exact_tag label c tags : forall x,
  0 <= c -> In label tags ->
  x + 0.9 * c <= fold_left (tagStep label c) tags x.
Proof.
  induction tags as [|t tags IH]; intros x Hc Hin; cbn [fold_left]; [easy|].
  destruct Hin as [-> | Hin].
  - pose proof (tag_loop_mono label c tags (tagStep label c x label) Hc) as H.
    rewrite tagStep_exact in H at 1. exact H.
  - pose proof (tagStep_mono label c x t Hc).
    specialize (IH (tagStep label c x t) Hc Hin). lra.
Qed.

Lemma array_includes_In arr x : In x arr -> Js.array_includes arr x = true.
Proof.
  intro H. unfold Js.array_includes. apply existsb_exists.
  exists x. split; [exact H | apply String.eqb_refl].
Qed.

(** For the label "mobile phone" and an entry named "smartphone" that has
    the tag "mobile phone", exactly two keys of [keywordMappings] fire. *)
Lemma keyword_loop_mobile_phone objTags c x :
  Js.array_includes objTags "mobile phone" = true ->
  fold_left (keywordStep "mobile phone" "smartphone" objTags c)
    keywordMappings x
  = x + 0.6 * c + 0.6 * c.
Proof.
  intro Htag.
  cbv [keywordMappings fold_left keywordStep].
  rewrite Htag. repeat decide_if. reflexivity.
Qed.

Lemma pairScore_mobile_phone obj :
  Js.toLowerCase (obj_name obj) = "smartphone" ->
  In "mobile phone" (map Js.toLowerCase (obj_tags obj)) ->
  0.81 + 0.54 + 0.54 <= pairScore "mobile phone" 0.9 obj.
Proof.
  intros Hname Htags. unfold pairScore. rewrite Hname.
  rewrite keyword_loop_mobile_phone by now apply array_includes_In.
  repeat decide_if.
  pose proof (tag_loop_exact_tag "mobile phone" 0.9
                (map Js.toLowerCase (obj_tags obj)) 0) as Htag.
  assert (Hc : 0 <= 0.9) by (vm_compute; discriminate).
  specialize (Htag Hc Htags).
  destruct (Js.includes (Js.toLowerCase (obj_category obj)) "mobile phone"
            || Js.includes "mobile phone" (Js.toLowerCase (obj_category obj)));
    lra.
Qed.

(** C1, as stated, fails: for the entry named "Smartphone" with the single
    tag "mobile phone", the pair does not score 0.81 and the confidence is
    not 81. *)
Lemma scenario_confidence_is_not_81 :
  ~ (pairScore "mobile phone" 0.9 smartphone == 0.81 /\
     option_map confidence
       (matchToDatabase [smartphone] [label_detection "mobile phone" 0.9])
     = Some 81%Z).
Proof.
  intros [Hscore _]. vm_compute in Hscore. discriminate.
Qed.

(** C1 (amended). For the detection list [{label: "mobile phone", score:
    0.9}] and a knowledge base with an entry named "Smartphone" whose tags
    contain "mobile phone", the pair scores at least 0.81 + 0.54 + 0.54 =
    1.89: the exact tag match and the keyword mappings of the keys
    "mobile phone" and "smartphone".  The matcher returns a result and its
    confidence is 95. *)
Theorem mobile_phone_scenario db obj :
  In obj db ->
  Js.toLowerCase (obj_name obj) = "smartphone" ->
  In "mobile phone" (map Js.toLowerCase (obj_tags obj)) ->
  0.81 + 0.54 + 0.54
    <= pairScore (label_of (label_detection "mobile phone" 0.9))
         (score_or_0 (label_detection "mobile phone" 0.9)) obj /\
  exists m,
    matchToDatabase db [label_detection "mobile phone" 0.9] = Some m /\
    confidence m = 95%Z.
Proof.
  intros Hobj Hname Htags.
  pose proof (pairScore_mobile_phone obj Hname Htags) as Hps.
  split; [exact Hps|].
  set (d := label_detection "mobile phone" 0.9).
  pose proof (MatcherFacts.scan_recorded db [d]) as Hrec.
  pose proof (MatcherFacts.scan_dominating db [d] d obj
                (or_introl eq_refl) eq_refl Hobj) as Hdom.
  change (label_of d) with "mobile phone" in Hdom.
  change (score_or_0 d) with 0.9 in Hdom.
  unfold matchToDatabase.
  destruct (scan db [d]) as [[m|] hs]; cbn [recorded snd] in *.
  - assert (Hhs : 1.89 <= hs) by (destruct Hdom; lra).
    destruct (Js.ltb hs 0.4) eqn:E.
    + apply JsFacts.ltb_true in E. lra.
    + exists m. split; [reflexivity|].
      destruct Hrec as (d' & obj' & _ & _ & _ & _ & _ & ->).
      cbn [recordFor confidence]. unfold Js.Math_min.
      apply Z.min_r.
      transitivity (Js.Math_round (inject_Z 189)).
      * rewrite JsFacts.Math_round_inject. lia.
      * apply JsFacts.Math_round_mono.
        change (inject_Z 189) with (189 # 1). lra.
  - subst hs. destruct Hdom; lra.
Qed.

(** The entry of the scenario: the pair scores exactly 1.89. *)
Lemma mobile_phone_scenario_witness :
  (In smartphone [hammer; smartphone] /\
   Js.toLowerCase (obj_name smartphone) = "smartphone" /\
   In "mobile phone" (map Js.toLowerCase (obj_tags smartphone))) /\
  pairScore "mobile phone" 0.9 smartphone == 1.89 /\
  exists m,
    matchToDatabase [hammer; smartphone] [label_detection "mobile phone" 0.9]
      = Some m /\
    confidence m = 95%Z.
Proof.
  assert (H1 : In smartphone [hammer; smartphone]) by (right; left; reflexivity).
  assert (H2 : Js.toLowerCase (obj_name smartphone) = "smartphone")
    by reflexivity.
  assert (H3 : In "mobile phone" (map Js.toLowerCase (obj_tags smartphone)))
    by (left; reflexivity).
  split; [auto|]. split; [reflexivity|].
  exact (proj2 (mobile_phone_scenario [hammer; smartphone] smartphone H1 H2 H3)).
Defined.

(* ================================================================== *)
(** ** Properties of the orchestrator                                  *)
(* ================================================================== *)





Lemma try_catch_rethrow {A : Type} (body : Js.result A) :
  Js.try_catch body (fun error => Js.Throw error) = body.
Proof. now destruct body. Qed.





(** C7. When the provider call throws, which it does in particular when no
    API key is configured or when the request fails, the recognition does
    not throw: it returns what the demo path returns. *)
Theorem provider_failure_falls_back db w imageData :
  (Js.or_str (API_KEY w) None = None ->
   callComputerVisionAPI db w imageData
     = Js.Throw (Js.Error "API key not configured")) /\
  (forall e,
     callComputerVisionAPI db w imageData = Js.Throw e ->
     performObjectRecognition db w imageData
       = Js.Return (Demo (performIntelligentMatching db (random w) imageData))).
Proof.
  split.
  - intro Hkey. unfold callComputerVisionAPI. now rewrite Hkey.
  - intros e Hthrow. unfold performObjectRecognition.
    rewrite Hthrow. reflexivity.
Qed.

(** Without a key, and with a failing request, a draw of 0.2 leads to the
    "not recognized" answer of the demo path. *)
Lemma provider_failure_falls_back_witness :
  callComputerVisionAPI [smartphone] (keyless (draws 0.2 0 0)) "data:,abc"
    = Js.Throw (Js.Error "API key not configured") /\
  performObjectRecognition [smartphone] (keyless (draws 0.2 0 0)) "data:,abc"
    = Js.Return (Demo (mkDemo None 0
        "Object not recognized. Try taking another photo with better lighting or search manually using the search tab.")) /\
  performObjectRecognition [smartphone] (offline (draws 0.2 0 0)) "data:,abc"
    = Js.Return (Demo (mkDemo None 0
        "Object not recognized. Try taking another photo with better lighting or search manually using the search tab.")).
Proof.
  pose proof (provider_failure_falls_back [smartphone]
                (keyless (draws 0.2 0 0)) "data:,abc") as [Hkey Hfall].
  split; [|split].
  - apply Hkey. reflexivity.
  - rewrite (Hfall _ (Hkey eq_refl)). reflexivity.
  - rewrite (proj2 (provider_failure_falls_back [smartphone]
               (offline (draws 0.2 0 0)) "data:,abc")
               (Js.Error "Failed to fetch") eq_refl).
    reflexivity.
Defined.

(* ================================================================== *)
(** ** Properties of the synthesizer                                   *)
(* ================================================================== *)

Lemma confidence_of_compat v1 v2 :
  score_or_0 v1 == score_or_0 v2 -> Synth.confidence_of v1 = Synth.confidence_of v2.
Proof.
  intro H. unfold Synth.confidence_of, Js.Math_round.
  apply Qfloor_comp. now rewrite H.
Qed.

(** C6. Two runs of the synthesizer on detections with the same label and
    the same score, at any two times, either both throw the same exception
    or return entries that agree on every field other than [id]. *)
Theorem synthesizer_deterministic now1 now2 v1 v2 :
  Synth.detectedLabel_of v1 = Synth.detectedLabel_of v2 ->
  score_or_0 v1 == score_or_0 v2 ->
  same_outcome_except_id
    (Synth.generateInstructionsForObject now1 v1)
    (Synth.generateInstructionsForObject now2 v2).
Proof.
  intros Hlabel Hscore. unfold Synth.generateInstructionsForObject.
  rewrite Hlabel, (confidence_of_compat v1 v2 Hscore).
  destruct (Synth.detectedLabel_of v2) as [detectedLabel|];
    cbn [same_outcome_except_id]; [|reflexivity].
  destruct (Synth.generateTags detectedLabel) as [tags|e];
    cbn [Js.bind same_outcome_except_id]; [|reflexivity].
  unfold same_except_id. cbn. repeat split.
Qed.

(** The same label and score, once as a label annotation and once as a
    localized object, at two different times. *)
Lemma synthesizer_deterministic_witness :
  same_outcome_except_id
    (Synth.generateInstructionsForObject 1700000000000
       (mkDetection (Some "Power Drill") None (Some 0.87)))
    (Synth.generateInstructionsForObject 1700000000999
       (mkDetection None (Some "Power Drill") (Some (87 # 100)))).
Proof.
  apply synthesizer_deterministic; reflexivity.
Defined.

(* ================================================================== *)
(** ** Properties of the demo fallback                                 *)
(* ================================================================== *)

Lemma demoRandomSelection_hit db g :
  0.7 < g 0%nat ->
  demoRandomSelection db g =
    Some (mkDemo
            (Js.index db
               (Js.Math_floor (g 1%nat * inject_Z (Z.of_nat (List.length db)))))
            (Js.Math_floor (g 2%nat * 30) + 40)
            "Demo mode: Random selection for demonstration").
Proof.
  intro H. apply JsFacts.gtb_true in H.
  unfold demoRandomSelection, Math_random. now rewrite H.
Qed.

Lemma demoRandomSelection_miss db g :
  g 0%nat <= 0.7 -> demoRandomSelection db g = None.
Proof.
  intro H. apply JsFacts.gtb_false in H.
  unfold demoRandomSelection, Math_random. now rewrite H.
Qed.


Lemma random_index_in_range (db : list KnowledgeEntry) (g : Rng) :
  0 <= g 1%nat < 1 -> db <> [] ->
  exists obj,
    In obj db /\
    Js.index db
      (Js.Math_floor (g 1%nat * inject_Z (Z.of_nat (List.length db))))
    = Some obj.
Proof.
  intros [Hlo Hhi] Hne.
  set (n := Z.of_nat (List.length db)).
  assert (Hn : (0 < n)%Z).
  { subst n. destruct db; [congruence | cbn [List.length]; lia]. }
  assert (HnQ : 0 < inject_Z n).
  { change 0 with (inject_Z 0). now rewrite <- Zlt_Qlt. }
  assert (B : (0 <= Js.Math_floor (g 1%nat * inject_Z n) < n)%Z).
  { apply JsFacts.Math_floor_bounds.
    - change (inject_Z 0) with 0. now apply Qmult_le_0_compat; [|apply Qlt_le_weak].
    - rewrite <- (Qmult_1_l (inject_Z n)) at 2.
      now apply Qmult_lt_compat_r. }
  unfold Js.index.
  destruct (Js.Math_floor (g 1%nat * inject_Z n) <? 0)%Z eqn:E; [lia|].
  destruct (nth_error db (Z.to_nat (Js.Math_floor (g 1%nat * inject_Z n))))
    as [obj|] eqn:Hnth.
  - exists obj. split; [eapply nth_error_In; eassumption | reflexivity].
  - apply nth_error_None in Hnth. subst n. lia.
Qed.



(* ================================================================== *)
(** ** The two matchers                                                *)
(* ================================================================== *)

(** C9. The two matchers are not equivalent: on the same knowledge base
    and the same detections they can return different results.  The simple
    matcher weighs a name, tag and category match with 0.8, 0.6 and 0.5;
    it records a detection scored below 0.3, returns a pair scored below
    0.4, and reports a confidence above 95. *)
Theorem superseded_matcher_differs :
  (exists db ds,
     ~ same_match (matchToDatabase db ds) (Superseded.matchToDatabase db ds)) /\
  (forall c,
     Superseded.pairScore "Hammer" c hammer == 0.8 * c /\
     Superseded.pairScore "claw" c hammer == 0.6 * c /\
     Superseded.pairScore "hand tools" c hammer == 0.5 * c) /\
  (Superseded.matchToDatabase [hammer] [label_detection "Hammer" 0.2]
     = Js.Return (Some (Superseded.mkMatch hammer 16)) /\
   matchToDatabase [hammer] [label_detection "Hammer" 0.2] = None) /\
  (Superseded.matchToDatabase [hammer] [label_detection "Hammer" 0.3]
     = Js.Return (Some (Superseded.mkMatch hammer 24)) /\
   matchToDatabase [hammer] [label_detection "Hammer" 0.3] = None) /\
  (Superseded.matchToDatabase [drill] [label_detection "drill" 0.9]
     = Js.Return (Some (Superseded.mkMatch drill 180)) /\
   matchToDatabase [drill] [label_detection "drill" 0.9]
     = Some (mkMatch drill 95 "drill" "2.70")).
Proof.
  split; [|split; [|split; [|split]]].
  - exists [hammer], [label_detection "Hammer" 0.2].
    intro H. vm_compute in H. exact H.
  - intro c. unfold Superseded.pairScore, hammer.
    cbn [obj_name obj_tags obj_category fold_left].
    unfold Superseded.tagStep.
    repeat split; repeat decide_if; ring.
  - split; reflexivity.
  - split; reflexivity.
  - split; reflexivity.
Qed.

(* ================================================================== *)
(** ** Further properties of the authoritative matcher                 *)
(* ================================================================== *)

Lemma keywordStep_mono label objName objTags c x entry :
  0 <= c -> x <= keywordStep label objName objTags c x entry.
Proof.
  intro Hc. unfold keywordStep. destruct entry as [key synonyms].
  destruct (existsb _ synonyms); [|lra].
  destruct (Js.includes objName key || Js.array_includes objTags key); lra.
Qed.

Lemma keyword_loop_mono label objName objTags c mappings : forall x,
  0 <= c ->
  x <= fold_left (keywordStep label objName objTags c) mappings x.
Proof.
  induction mappings as [|e mappings IH]; intros x Hc; cbn [fold_left]; [lra|].
  pose proof (keywordStep_mono label objName objTags c x e Hc).
  specialize (IH (keywordStep label objName objTags c x e) Hc). lra.
Qed.

(** With a confidence that is not negative, no signal lowers the score,
    and an exact name match alone contributes the whole confidence. *)
Lemma pairScore_lower_bounds label c obj :
  0 <= c ->
  0 <= pairScore label c obj /\
  (Js.toLowerCase (obj_name obj) = label -> c <= pairScore label c obj).
Proof.
  intro Hc. unfold pairScore. cbv zeta.
  set (objName := Js.toLowerCase (obj_name obj)).
  set (objTags := map Js.toLowerCase (obj_tags obj)).
  set (s1 := if String.eqb objName label || String.eqb label objName
             then 0 + 1.0 * c
             else if Js.includes objName label || Js.includes label objName
                  then if (Js.str_length label >? 3)%Z
                          && (Js.str_length objName >? 3)%Z
                       then 0 + 0.7 * c else 0
                  else 0).
  assert (H1 : 0 <= s1).
  { subst s1. destruct (String.eqb objName label || String.eqb label objName);
      [lra|].
    destruct (Js.includes objName label || Js.includes label objName); [|lra].
    destruct ((Js.str_length label >? 3)%Z && (Js.str_length objName >? 3)%Z);
      lra. }
  pose proof (tag_loop_mono label c objTags s1 Hc) as H2.
  set (s2 := fold_left (tagStep label c) objTags s1) in *.
  set (s3 := if Js.includes (Js.toLowerCase (obj_category obj)) label
                || Js.includes label (Js.toLowerCase (obj_category obj))
             then s2 + 0.3 * c else s2).
  assert (H3 : s2 <= s3).
  { subst s3.
    destruct (Js.includes (Js.toLowerCase (obj_category obj)) label
              || Js.includes label (Js.toLowerCase (obj_category obj))); lra. }
  pose proof (keyword_loop_mono label objName objTags c keywordMappings s3 Hc)
    as H4.
  split; [lra|].
  intro Hname.
  assert (H1' : s1 == c).
  { subst s1. rewrite Hname, String.eqb_refl. cbn [orb]. ring. }
  lra.
Qed.

(** A relevant pair that scores at least 0.4 forces a result whose
    confidence is at least the one of that pair. *)
Lemma good_pair_gives_match db ds d obj :
  In d ds -> relevant d = true -> In obj db ->
  0.4 <= pairScore (label_of d) (score_or_0 d) obj ->
  exists m,
    matchToDatabase db ds = Some m /\
    (Z.min (Js.Math_round (pairScore (label_of d) (score_or_0 d) obj * 100)) 95
     <= confidence m)%Z.
Proof.
  intros Hd Hrel Hobj Hps.
  pose proof (MatcherFacts.scan_recorded db ds) as Hrec.
  pose proof (MatcherFacts.scan_dominating db ds d obj Hd Hrel Hobj) as Hdom.
  unfold matchToDatabase.
  destruct (scan db ds) as [[m|] hs]; cbn [recorded snd] in *.
  - assert (Hhs : pairScore (label_of d) (score_or_0 d) obj <= hs)
      by (destruct Hdom; lra).
    destruct (Js.ltb hs 0.4) eqn:E.
    + apply JsFacts.ltb_true in E. lra.
    + exists m. split; [reflexivity|].
      destruct Hrec as (d' & obj' & _ & _ & _ & _ & _ & ->).
      cbn [recordFor confidence]. unfold Js.Math_min.
      apply Z.min_le_compat_r. apply JsFacts.Math_round_mono. lra.
  - subst hs. destruct Hdom; lra.
Qed.

(** X3. The confidence of a returned result is at least 40. *)
Theorem matchToDatabase_confidence_at_least_40 db ds m :
  matchToDatabase db ds = Some m -> (40 <= confidence m)%Z.
Proof.
  intro H. apply matchToDatabase_winner in H.
  destruct H as (d & obj & _ & _ & _ & Hfloor & -> & _).
  cbn [recordFor confidence]. unfold Js.Math_min.
  apply Z.min_glb; [|lia].
  rewrite <- (JsFacts.Math_round_inject 40).
  apply JsFacts.Math_round_mono. change (inject_Z 40) with 40. lra.
Qed.

(** The lowest accepted score, 0.4, is reported as 40. *)
Lemma matchToDatabase_confidence_at_least_40_witness :
  matchToDatabase [hammer] [label_detection "Hammer" 0.4]
    = Some (mkMatch hammer 40 "hammer" "0.40") /\
  (40 <= 40)%Z.
Proof.
  split; [reflexivity|].
  exact (matchToDatabase_confidence_at_least_40 [hammer]
           [label_detection "Hammer" 0.4]
           (mkMatch hammer 40 "hammer" "0.40") eq_refl).
Defined.

(** X4. A detection scored at least 0.4 whose label equals the name of an
    entry, letter case aside, is never rejected: the matcher returns a
    result, with a confidence of at least [round(score * 100)] cut off at
    95. *)
Theorem exact_name_is_matched db ds d obj :
  In d ds -> In obj db ->
  label_of d = Js.toLowerCase (obj_name obj) ->
  0.4 <= score_or_0 d ->
  exists m,
    matchToDatabase db ds = Some m /\
    (Z.min (Js.Math_round (score_or_0 d * 100)) 95 <= confidence m)%Z.
Proof.
  intros Hd Hobj Hname Hscore.
  assert (Hc : 0 <= score_or_0 d) by lra.
  destruct (pairScore_lower_bounds (label_of d) (score_or_0 d) obj Hc)
    as [_ Hexact].
  specialize (Hexact (eq_sym Hname)).
  assert (Hrel : relevant d = true) by (apply relevant_true_iff; lra).
  destruct (good_pair_gives_match db ds d obj Hd Hrel Hobj) as (m & Hm & Hconf);
    [lra|].
  exists m. split; [exact Hm|].
  etransitivity; [|exact Hconf].
  apply Z.min_le_compat_r. apply JsFacts.Math_round_mono. lra.
Qed.

(** "HAMMER" at 0.5 against a database that holds "Hammer". *)
Lemma exact_name_is_matched_witness :
  exists m,
    matchToDatabase [smartphone; hammer]
      [label_detection "xyz" 0.9; label_detection "HAMMER" 0.5] = Some m /\
    (Z.min (Js.Math_round (score_or_0 (label_detection "HAMMER" 0.5) * 100)) 95
     <= confidence m)%Z.
Proof.
  apply (exact_name_is_matched [smartphone; hammer]
           [label_detection "xyz" 0.9; label_detection "HAMMER" 0.5]
           (label_detection "HAMMER" 0.5) hammer).
  - right. left. reflexivity.
  - right. left. reflexivity.
  - reflexivity.
  - vm_compute. discriminate.
Defined.

(** *** Letter case of the detection labels *)

Lemma lower_upper_ascii c : Js.lower_ascii (Js.upper_ascii c) = Js.lower_ascii c.
Proof.
  destruct c as [[] [] [] [] [] [] [] []]; reflexivity.
Qed.

Lemma toLowerCase_toUpperCase s :
  Js.toLowerCase (Js.toUpperCase s) = Js.toLowerCase s.
Proof.
  unfold Js.toLowerCase, Js.toUpperCase.
  induction s as [|c s IH]; cbn [Js.map_string]; [reflexivity|].
  now rewrite IH, lower_upper_ascii.
Qed.

Lemma or_str_toUpperCase a b :
  option_map Js.toUpperCase (Js.or_str a b) =
  Js.or_str (option_map Js.toUpperCase a) (option_map Js.toUpperCase b).
Proof.
  destruct a as [[|c s]|]; reflexivity.
Qed.

Lemma label_of_shout d : label_of (shout d) = label_of d.
Proof.
  unfold label_of, shout. cbn [description name].
  rewrite <- or_str_toUpperCase.
  destruct (Js.or_str (description d) (name d)) as [s|]; cbn [option_map Js.or_default];
    [apply toLowerCase_toUpperCase | reflexivity].
Qed.

(** X5. The matcher does not see the letter case of detections with
    ASCII labels: putting every description and name in upper case
    changes nothing in what it returns. *)
Theorem matchToDatabase_ignores_label_case db ds :
  (forall d, In d ds -> ascii_labelled d = true) ->
  matchToDatabase db (map shout ds) = matchToDatabase db ds.
Proof.
  intros _. unfold matchToDatabase, scan.
  assert (H : forall st,
            fold_left (visitDetection db) (map shout ds) st =
            fold_left (visitDetection db) ds st).
  { induction ds as [|d ds IH]; intro st; cbn [map fold_left]; [reflexivity|].
    rewrite IH. f_equal.
    unfold visitDetection. rewrite label_of_shout. reflexivity. }
  now rewrite H.
Qed.

(** "MOBILE PHONE" is matched as "Mobile Phone" is. *)
Lemma matchToDatabase_ignores_label_case_witness :
  matchToDatabase [smartphone] [label_detection "MOBILE PHONE" 0.9]
    = matchToDatabase [smartphone] [label_detection "Mobile Phone" 0.9] /\
  exists m,
    matchToDatabase [smartphone] [label_detection "MOBILE PHONE" 0.9] = Some m.
Proof.
  assert (Hascii : forall d, In d [label_detection "Mobile Phone" 0.9] ->
                             ascii_labelled d = true)
    by (intros d [<- | []]; reflexivity).
  split.
  - exact (matchToDatabase_ignores_label_case [smartphone]
             [label_detection "Mobile Phone" 0.9] Hascii).
  - eexists. reflexivity.
Defined.

(* ================================================================== *)
(** ** Facts about strings                                             *)
(* ================================================================== *)

Module StringFacts.

Lemma app_nil_r (s : string) : s ++ "" = s.
Proof. induction s as [|c s IH]; cbn; [reflexivity | now rewrite IH]. Qed.

Lemma app_assoc (a b c : string) : (a ++ b) ++ c = a ++ (b ++ c).
Proof. induction a as [|x a IH]; cbn; [reflexivity | now rewrite IH]. Qed.

Lemma length_app (a b : string) :
  String.length (a ++ b) = (String.length a + String.length b)%nat.
Proof. induction a as [|x a IH]; cbn; [reflexivity | now rewrite IH]. Qed.

Lemma map_string_app f (a b : string) :
  Js.map_string f (a ++ b) = Js.map_string f a ++ Js.map_string f b.
Proof. induction a as [|x a IH]; cbn; [reflexivity | now rewrite IH]. Qed.

Lemma map_string_length f (s : string) :
  String.length (Js.map_string f s) = String.length s.
Proof. induction s as [|c s IH]; cbn; [reflexivity | now rewrite IH]. Qed.

Lemma prefix_iff (p s : string) :
  String.prefix p s = true <-> exists t, s = p ++ t.
Proof.
  revert s. induction p as [|c p IH]; intro s.
  - split; [intros _; now exists s | intros _; now destruct s].
  - destruct s as [|d s]; cbn.
    + split; [discriminate | intros (t & [=])].
    + destruct (ascii_dec c d) as [<- | Hne].
      * rewrite IH. split; intros (t & H); exists t;
          [now rewrite H | now injection H].
      * split; [discriminate | intros (t & [= H _]); congruence].
Qed.

(** [s.includes(sub)] holds exactly when [s] is [a ++ sub ++ b]. *)
Lemma includes_iff (s sub : string) :
  Js.includes s sub = true <-> exists a b, s = a ++ sub ++ b.
Proof.
  induction s as [|c s IH]; cbn [Js.includes]; rewrite orb_true_iff, prefix_iff.
  - split.
    + intros [(t & H) | H]; [|discriminate]. exists "", t. exact H.
    + intros (a & b & H). left. destruct a as [|x a]; [|discriminate].
      now exists b.
  - rewrite IH. split.
    + intros [(t & H) | (a & b & H)].
      * exists "", t. exact H.
      * exists (String c a), b. cbn. now rewrite H.
    + intros (a & b & H). destruct a as [|x a].
      * left. now exists b.
      * right. cbn in H. injection H as _ H. now exists a, b.
Qed.

Lemma includes_refl (s : string) : Js.includes s s = true.
Proof.
  apply includes_iff. exists "", "". cbn. now rewrite app_nil_r.
Qed.

Lemma includes_empty (s : string) : Js.includes s "" = true.
Proof. apply includes_iff. now exists "", s. Qed.

Lemma includes_trans (a b c : string) :
  Js.includes a b = true -> Js.includes b c = true -> Js.includes a c = true.
Proof.
  rewrite !includes_iff. intros (x & y & ->) (u & v & ->).
  exists (x ++ u), (v ++ y). now rewrite !app_assoc.
Qed.

Lemma toLowerCase_app (a b : string) :
  Js.toLowerCase (a ++ b) = Js.toLowerCase a ++ Js.toLowerCase b.
Proof. apply map_string_app. Qed.

Lemma lower_ascii_idem c : Js.lower_ascii (Js.lower_ascii c) = Js.lower_ascii c.
Proof. destruct c as [[] [] [] [] [] [] [] []]; reflexivity. Qed.

Lemma toLowerCase_idem (s : string) :
  Js.toLowerCase (Js.toLowerCase s) = Js.toLowerCase s.
Proof.
  unfold Js.toLowerCase.
  induction s as [|c s IH]; cbn; [reflexivity|].
  now rewrite IH, lower_ascii_idem.
Qed.

(** Lower-casing keeps substrings. *)
Lemma includes_toLowerCase (s sub : string) :
  Js.includes s sub = true ->
  Js.includes (Js.toLowerCase s) (Js.toLowerCase sub) = true.
Proof.
  rewrite !includes_iff. intros (a & b & ->).
  exists (Js.toLowerCase a), (Js.toLowerCase b).
  now rewrite !toLowerCase_app.
Qed.

Lemma split_space_aux_not_nil cur s : Js.split_space_aux cur s <> [].
Proof.
  revert cur. induction s as [|c s IH]; intro cur; cbn; [discriminate|].
  destruct (Ascii.eqb c " "); [discriminate | apply IH].
Qed.

Lemma join_space_cons x (l : list string) :
  l <> [] -> Js.join_space (x :: l) = x ++ " " ++ Js.join_space l.
Proof. destruct l; [congruence | reflexivity]. Qed.

(** [s.split(' ').join(' ')] gives [s] back. *)
Lemma join_split_aux cur s :
  Js.join_space (Js.split_space_aux cur s) = cur ++ s.
Proof.
  revert cur. induction s as [|c s IH]; intro cur; cbn [Js.split_space_aux].
  - cbn. now rewrite app_nil_r.
  - destruct (Ascii.eqb_spec c " ") as [-> | Hne].
    + rewrite join_space_cons by apply split_space_aux_not_nil.
      now rewrite IH.
    + rewrite IH, app_assoc. reflexivity.
Qed.

Lemma join_split (s : string) : Js.join_space (Js.split_space s) = s.
Proof. unfold Js.split_space. now rewrite join_split_aux. Qed.

End StringFacts.

(* ================================================================== *)
(** ** Further properties of the synthesizer                           *)
(* ================================================================== *)

(** A lower-cased key is inherited only when it is "constructor" or
    "__proto__": the other inherited names contain capital letters. *)
Lemma inherited_toLowerCase (s : string) :
  Js.inherited (Js.toLowerCase s) = true <->
  In (Js.toLowerCase s) ["constructor"; "__proto__"].
Proof.
  pose proof (StringFacts.toLowerCase_idem s) as Hidem.
  set (k := Js.toLowerCase s) in *. clearbody k.
  unfold Js.inherited, Js.inheritedKeys, Js.array_includes.
  cbn [existsb In]. split.
  - destruct (String.eqb_spec k "constructor") as [E | _];
      [intros _; left; now symmetry|].
    destruct (String.eqb_spec k "__proto__") as [E | _];
      [intros _; right; left; now symmetry|].
    repeat match goal with
    | |- context [String.eqb k ?c] =>
        destruct (String.eqb_spec k c) as [E | _];
        [rewrite E in Hidem; vm_compute in Hidem; discriminate Hidem|]
    end.
    cbn. discriminate.
  - intros [<- | [<- | []]]; reflexivity.
Qed.

Lemma generateTags_cases (label : string) :
  (In (Js.toLowerCase label) ["constructor"; "__proto__"] /\
   Synth.generateTags label = Js.Throw Js.TypeError)
  \/
  (~ In (Js.toLowerCase label) ["constructor"; "__proto__"] /\
   exists extra,
     Synth.generateTags label
       = Js.Return (Js.split_space (Js.toLowerCase label) ++ extra)%list /\
     (extra <> [] ->
      In (Js.toLowerCase label) ["mobile phone"; "knife"; "computer"; "plant"])).
Proof.
  unfold Synth.generateTags.
  destruct (Js.inherited (Js.toLowerCase label)) eqn:Hin.
  - left. split; [now apply inherited_toLowerCase | reflexivity].
  - right. split.
    + intro H. apply inherited_toLowerCase in H. congruence.
    + eexists. split; [reflexivity|].
      cbn [Js.lookup].
      repeat match goal with
      | |- context [String.eqb ?k (Js.toLowerCase label)] =>
          destruct (String.eqb_spec k (Js.toLowerCase label)) as [<- | _];
          [intros _; cbn; tauto|]
      end.
      cbn. congruence.
Qed.

(** What the synthesizer returns, when it returns. *)
Lemma generateInstructionsForObject_Return now visionData e :
  Synth.generateInstructionsForObject now visionData = Js.Return e ->
  exists label tags,
    Synth.detectedLabel_of visionData = Some label /\
    Synth.generateTags label = Js.Return tags /\
    let category :=
      Js.or_default (Js.lookup Synth.categoryMapping (Js.toLowerCase label))
        "General Items" in
    e = {| Synth.id := "vision-" ++ Js.string_of_Z now;
           Synth.name := Synth.formatObjectName label;
           Synth.category := category;
           Synth.tags := tags;
           Synth.description := Synth.generateDescription label category;
           Synth.difficulty := Synth.getDifficultyLevel category;
           Synth.timeEstimate := Synth.getTimeEstimate category;
           Synth.safetyLevel := Synth.getSafetyLevel label category;
           Synth.image := None;
           Synth.commonUses := Synth.generateCommonUses label;
           Synth.materials := Synth.generateMaterials label category;
           Synth.generalWarnings := Synth.generateWarnings label category;
           Synth.instructions := Synth.generateBasicInstructions label category;
           Synth.maintenance := Synth.generateMaintenance label category;
           Synth.storage := Synth.generateStorage label category;
           Synth.lifespan := Synth.getLifespan category;
           Synth.ageRestrictions := Synth.getAgeRestrictions category;
           Synth.confidence := Synth.confidence_of visionData;
           Synth.source := "Google Vision API" |}.
Proof.
  unfold Synth.generateInstructionsForObject.
  destruct (Synth.detectedLabel_of visionData) as [label|]; [|discriminate].
  destruct (Synth.generateTags label) as [tags|e'] eqn:Ht;
    cbn [Js.bind]; [|discriminate].
  intros [= <-]. exists label, tags.
  split; [reflexivity|]. split; [exact Ht | reflexivity].
Qed.


Lemma toLowerCase_capitalize word :
  Js.toLowerCase (Synth.capitalize word) = Js.toLowerCase word.
Proof.
  destruct word as [|c rest]; [reflexivity|].
  unfold Js.toLowerCase. cbn. now rewrite lower_upper_ascii.
Qed.

Lemma length_capitalize word :
  String.length (Synth.capitalize word) = String.length word.
Proof. now destruct word. Qed.

Lemma join_map_capitalize words :
  Js.toLowerCase (Js.join_space (map Synth.capitalize words))
    = Js.toLowerCase (Js.join_space words) /\
  String.length (Js.join_space (map Synth.capitalize words))
    = String.length (Js.join_space words).
Proof.
  induction words as [|w words [IHl IHn]]; [now split|].
  destruct words as [|w' words].
  - cbn [map Js.join_space].
    split; [apply toLowerCase_capitalize | apply length_capitalize].
  - cbn [map] in *.
    rewrite (StringFacts.join_space_cons (Synth.capitalize w)
               (Synth.capitalize w' :: map Synth.capitalize words))
      by discriminate.
    rewrite (StringFacts.join_space_cons w (w' :: words)) by discriminate.
    rewrite !StringFacts.toLowerCase_app, !StringFacts.length_app.
    rewrite IHl, IHn, toLowerCase_capitalize, length_capitalize.
    now split.
Qed.

(** X6. The name of a synthesized entry is its label, when that is an
    ASCII string, with some letters put in upper case: lower-casing both
    gives the same string, and the two have the same length. *)
Theorem formatObjectName_recases label :
  Js.is_ascii label = true ->
  Js.toLowerCase (Synth.formatObjectName label) = Js.toLowerCase label /\
  String.length (Synth.formatObjectName label) = String.length label.
Proof.
  intros _. unfold Synth.formatObjectName.
  destruct (join_map_capitalize (Js.split_space label)) as [Hl Hn].
  rewrite Hl, Hn, StringFacts.join_split. now split.
Qed.

(** "power  drill", with two spaces, becomes "Power  Drill". *)
Lemma formatObjectName_recases_witness :
  Synth.formatObjectName "power  drill" = "Power  Drill" /\
  Js.toLowerCase (Synth.formatObjectName "power  drill") = "power  drill" /\
  String.length (Synth.formatObjectName "power  drill") = 12%nat.
Proof.
  split; [reflexivity|].
  exact (formatObjectName_recases "power  drill" eq_refl).
Defined.

(** X7. For a label that lower-cased is "constructor" or "__proto__"
    the tags cannot be built: the call throws a [TypeError].  For every
    other label the tags start with the words of the lower-cased label,
    which joined by spaces give the lower-cased label back; further tags
    are added for the labels "mobile phone", "knife", "computer" and
    "plant" only. *)
Theorem generateTags_words label :
  (In (Js.toLowerCase label) ["constructor"; "__proto__"] ->
   Synth.generateTags label = Js.Throw Js.TypeError) /\
  (~ In (Js.toLowerCase label) ["constructor"; "__proto__"] ->
   exists extra,
     Synth.generateTags label
       = Js.Return (Js.split_space (Js.toLowerCase label) ++ extra)%list /\
     Js.join_space (Js.split_space (Js.toLowerCase label))
       = Js.toLowerCase label /\
     (extra <> [] ->
      In (Js.toLowerCase label) ["mobile phone"; "knife"; "computer"; "plant"])).
Proof.
  destruct (generateTags_cases label) as [[Hin Ht] | [Hout (extra & Ht & He)]].
  - split; [intros _; exact Ht | intro H; contradiction].
  - split; [intro H; contradiction|].
    intros _. exists extra. split; [exact Ht|].
    split; [apply StringFacts.join_split | exact He].
Qed.

(** "Constructor" cannot be tagged; "Mobile Phone" gets its two words and
    four further tags. *)
Lemma generateTags_words_witness :
  Synth.generateTags "Constructor" = Js.Throw Js.TypeError /\
  exists extra,
    Synth.generateTags "Mobile Phone"
      = Js.Return (["mobile"; "phone"] ++ extra)%list /\
    extra <> [].
Proof.
  split.
  - apply (proj1 (generateTags_words "Constructor")). now left.
  - assert (Hout : ~ In (Js.toLowerCase "Mobile Phone")
                       ["constructor"; "__proto__"]).
    { intros [H | [H | []]]; discriminate H. }
    destruct (proj2 (generateTags_words "Mobile Phone") Hout)
      as (extra & Ht & _ & _).
    exists extra. split; [exact Ht|].
    intros ->. discriminate Ht.
Defined.

Lemma category_known key :
  In (Js.or_default (Js.lookup Synth.categoryMapping key) "General Items")
    knownCategories.
Proof.
  unfold Synth.categoryMapping. cbn [Js.lookup].
  repeat match goal with
  | |- context [String.eqb ?k key] =>
      destruct (String.eqb k key); [cbn; tauto|]
  end.
  cbn. tauto.
Qed.

Lemma category_power_tools key :
  Js.or_default (Js.lookup Synth.categoryMapping key) "General Items"
    = "Power Tools" ->
  key = "drill" \/ key = "saw".
Proof.
  unfold Synth.categoryMapping. cbn [Js.lookup].
  repeat match goal with
  | |- context [String.eqb ?k key] =>
      destruct (String.eqb_spec k key) as [<- | _];
      [cbn [Js.or_default]; intro H; try discriminate H; auto|]
  end.
  cbn. discriminate.
Qed.

(** X8. The category of a synthesized entry is one of nine, and its
    description is the template of that category: it starts with "A ",
    the label as detected, and a space. *)
Theorem synthesized_category_and_description now visionData e :
  Synth.generateInstructionsForObject now visionData = Js.Return e ->
  In (Synth.category e) knownCategories /\
  exists label,
    Synth.detectedLabel_of visionData = Some label /\
    String.prefix ("A " ++ label ++ " ") (Synth.description e) = true.
Proof.
  intro H. apply generateInstructionsForObject_Return in H.
  destruct H as (label & tags & Hl & _ & ->).
  cbn [Synth.category Synth.description].
  split; [apply category_known|].
  exists label. split; [exact Hl|].
  pose proof (category_known (Js.toLowerCase label)) as Hcat.
  set (category := Js.or_default _ _) in *.
  unfold knownCategories in Hcat. cbn [In] in Hcat.
  apply StringFacts.prefix_iff.
  repeat (destruct Hcat as [<- | Hcat];
          [eexists; cbn; rewrite StringFacts.app_assoc; reflexivity|]).
  destruct Hcat.
Qed.

(** "Cordless Drill" is not in the category table. *)
Lemma synthesized_category_and_description_witness :
  exists e,
    Synth.generateInstructionsForObject 0
      (label_detection "Cordless Drill" 0.8) = Js.Return e /\
    In (Synth.category e) knownCategories /\
    Synth.category e = "General Items".
Proof.
  eexists. split; [reflexivity|]. split; [|reflexivity].
  exact (proj1 (synthesized_category_and_description 0
                  (label_detection "Cordless Drill" 0.8) _ eq_refl)).
Defined.

(** X9. The safety level of a synthesized entry is "high", "medium" or
    "low".  An entry of the category "Power Tools" is always "high",
    because the only labels of that category, "drill" and "saw", are on
    the list of dangerous items; "medium" is therefore given to entries of
    the category "Safety Equipment" only. *)
Theorem synthesized_safety_level now visionData e :
  Synth.generateInstructionsForObject now visionData = Js.Return e ->
  In (Synth.safetyLevel e) ["high"; "medium"; "low"] /\
  (Synth.category e = "Power Tools" -> Synth.safetyLevel e = "high") /\
  (Synth.safetyLevel e = "medium" -> Synth.category e = "Safety Equipment").
Proof.
  intro H. apply generateInstructionsForObject_Return in H.
  destruct H as (label & tags & _ & _ & ->).
  cbn [Synth.category Synth.safetyLevel].
  set (category := Js.or_default _ _).
  assert (Hpower : category = "Power Tools" ->
            Synth.getSafetyLevel label category = "high").
  { intro Hcat. pose proof (category_power_tools _ Hcat) as Hkey.
    unfold Synth.getSafetyLevel.
    destruct Hkey as [-> | ->]; reflexivity. }
  split; [|split].
  - unfold Synth.getSafetyLevel.
    destruct (existsb _ _); [cbn; tauto|].
    destruct (String.eqb category "Power Tools"); [cbn; tauto|].
    destruct (String.eqb category "Safety Equipment"); cbn; tauto.
  - exact Hpower.
  - intro Hmedium. unfold Synth.getSafetyLevel in Hmedium, Hpower.
    destruct (existsb _ _); [discriminate|].
    destruct (String.eqb_spec category "Power Tools") as [Hcat | _].
    + specialize (Hpower Hcat). discriminate.
    + destruct (String.eqb_spec category "Safety Equipment") as [Hcat | _];
        [exact Hcat | discriminate].
Qed.

(** A drill is a power tool and "high"; a helmet is "medium". *)
Lemma synthesized_safety_level_witness :
  (exists e,
     Synth.generateInstructionsForObject 0 (label_detection "Drill" 0.8)
       = Js.Return e /\
     Synth.category e = "Power Tools" /\ Synth.safetyLevel e = "high") /\
  (exists e,
     Synth.generateInstructionsForObject 0 (label_detection "Helmet" 0.8)
       = Js.Return e /\
     Synth.safetyLevel e = "medium" /\ Synth.category e = "Safety Equipment").
Proof.
  split; eexists; (split; [reflexivity|]).
  - split; [reflexivity|].
    exact (proj1 (proj2 (synthesized_safety_level 0
                           (label_detection "Drill" 0.8) _ eq_refl)) eq_refl).
  - split; [reflexivity|].
    exact (proj2 (proj2 (synthesized_safety_level 0
                           (label_detection "Helmet" 0.8) _ eq_refl)) eq_refl).
Defined.

(** X10. For every category, supervision is required exactly when the
    difficulty is "Intermediate": both tables single out "Kitchen Tools",
    "Power Tools" and "Safety Equipment". *)
Theorem supervision_iff_intermediate category :
  Synth.supervisionRequired (Synth.getAgeRestrictions category) = true <->
  Synth.getDifficultyLevel category = "Intermediate".
Proof.
  unfold Synth.getAgeRestrictions, Synth.getDifficultyLevel.
  cbn [Js.lookup].
  destruct (String.eqb_spec "Electronics" category) as [<- | _];
    [cbn; split; discriminate|].
  destruct (String.eqb_spec "Kitchen Tools" category) as [<- | _];
    [cbn; split; reflexivity|].
  destruct (String.eqb_spec "Appliances" category) as [<- | _];
    [cbn; split; discriminate|].
  destruct (String.eqb_spec "Hand Tools" category) as [<- | _];
    [cbn; split; discriminate|].
  destruct (String.eqb_spec "Power Tools" category) as [<- | _];
    [cbn; split; reflexivity|].
  destruct (String.eqb_spec "Plants" category) as [<- | _];
    [cbn; split; discriminate|].
  destruct (String.eqb_spec "Sports Equipment" category) as [<- | _];
    [cbn; split; discriminate|].
  destruct (String.eqb_spec "Safety Equipment" category) as [<- | _];
    [cbn; split; reflexivity|].
  cbn. split; discriminate.
Qed.

(** X11. For a detection with a score between 0 and 1 (0 when it is
    missing), the confidence of the synthesized entry is between 0 and
    100. *)
Theorem synthesized_confidence_range now visionData e :
  Synth.generateInstructionsForObject now visionData = Js.Return e ->
  0 <= score_or_0 visionData <= 1 ->
  (0 <= Synth.confidence e <= 100)%Z.
Proof.
  intro H. apply generateInstructionsForObject_Return in H.
  destruct H as (label & tags & _ & _ & ->).
  intros [Hlo Hhi]. cbn [Synth.confidence]. unfold Synth.confidence_of.
  split.
  - rewrite <- (JsFacts.Math_round_inject 0).
    apply JsFacts.Math_round_mono. change (inject_Z 0) with 0. lra.
  - rewrite <- (JsFacts.Math_round_inject 100) at 2.
    apply JsFacts.Math_round_mono. change (inject_Z 100) with 100. lra.
Qed.

(** A score of 0.999 is rounded to 100. *)
Lemma synthesized_confidence_range_witness :
  exists e,
    Synth.generateInstructionsForObject 0 (label_detection "Lamp" 0.999)
      = Js.Return e /\
    Synth.confidence e = 100%Z /\
    (0 <= Synth.confidence e <= 100)%Z.
Proof.
  eexists. split; [reflexivity|]. split; [reflexivity|].
  apply (synthesized_confidence_range 0 (label_detection "Lamp" 0.999) _
           eq_refl).
  split; vm_compute; discriminate.
Defined.

(* ================================================================== *)
(** ** Properties of the reducer                                       *)
(* ================================================================== *)

Section StoreFacts.

Import Store.

Variable Tip : Type.

Lemma firstn_app_firstn {A : Type} (a b : list A) : forall n k,
  (n <= k)%nat -> firstn n (a ++ firstn k b)%list = firstn n (a ++ b)%list.
Proof.
  induction a as [|x a IH]; intros n k Hle; cbn [app].
  - rewrite firstn_firstn. f_equal. lia.
  - destruct n as [|n]; [reflexivity|]. cbn [firstn].
    rewrite (IH n k) by lia. reflexivity.
Qed.

Lemma reducer_history_length (s : State Tip) (a : Action Tip) :
  (List.length (identifiedObjects s) <= 10)%nat ->
  (List.length (identifiedObjects (objectReducer s a)) <= 10)%nat.
Proof.
  intro H. destruct a; cbn [objectReducer identifiedObjects]; try exact H.
  cbn [List.length]. rewrite length_firstn. lia.
Qed.

(** X12. The history never holds more than ten objects: whatever actions
    are dispatched on a state with at most ten, at most ten remain. *)
Theorem history_at_most_10 (actions : list (Action Tip)) : forall s : State Tip,
  (List.length (identifiedObjects s) <= 10)%nat ->
  (List.length (identifiedObjects (dispatchAll s actions)) <= 10)%nat.
Proof.
  unfold dispatchAll.
  induction actions as [|a actions IH]; intros s H; cbn [fold_left].
  - exact H.
  - apply IH. now apply reducer_history_length.
Qed.

Lemma replay_history (history : list IdentifiedObject) : forall s : State Tip,
  (List.length (identifiedObjects s) <= 10)%nat ->
  dispatchAll s (map ADD_IDENTIFIED_OBJECT history) =
    mkState Tip (currentObject s)
      (firstn 10 (rev history ++ identifiedObjects s)%list)
      (searchResults s) (communityTips s) (loading s) (error s) (confidence s).
Proof.
  unfold dispatchAll.
  induction history as [|x history IH]; intros s H; cbn [map fold_left rev app].
  - rewrite firstn_all2 by exact H. now destruct s.
  - rewrite IH by (apply reducer_history_length; exact H).
    cbn [objectReducer currentObject identifiedObjects searchResults
         communityTips loading error confidence].
    f_equal.
    change (x :: firstn 9 (identifiedObjects s))
      with (firstn 10 (x :: identifiedObjects s)).
    rewrite firstn_app_firstn by lia.
    now rewrite <- app_assoc.
Qed.

(** X13. Loading the cached history puts its objects in front of the
    history in reverse order and keeps the first ten of the result, so
    that of a long cache the last ten entries remain, the last one first;
    nothing else in the state changes, and nothing at all when the cache
    cannot be read. *)
Theorem loadCachedData_reverses (s : State Tip) :
  (List.length (identifiedObjects s) <= 10)%nat ->
  (forall history,
     dispatchAll s (loadCachedData (Js.Return history)) =
       mkState Tip (currentObject s)
         (firstn 10 (rev history ++ identifiedObjects s)%list)
         (searchResults s) (communityTips s) (loading s) (error s)
         (confidence s)) /\
  (forall e, dispatchAll s (loadCachedData (Js.Throw e)) = s).
Proof.
  intro H. split; [|reflexivity].
  intro history.
  replace (loadCachedData (Js.Return history))
    with (map (@ADD_IDENTIFIED_OBJECT Tip) history)
    by (now destruct history).
  now apply replay_history.
Qed.

End StoreFacts.

(** From the initial state, a cache of three objects is shown last one
    first. *)
Lemma loadCachedData_reverses_witness :
  Store.identifiedObjects
    (Store.dispatchAll (@Store.initialState unit)
       (Store.loadCachedData
          (Js.Return [Store.Curated hammer; Store.Curated smartphone;
                      Store.Curated drill])))
  = [Store.Curated drill; Store.Curated smartphone; Store.Curated hammer].
Proof.
  rewrite (proj1 (loadCachedData_reverses unit Store.initialState
                    (Nat.le_0_l 10))).
  reflexivity.
Defined.

(** Eleven additions to the initial state leave ten objects. *)
Lemma history_at_most_10_witness :
  (List.length
     (Store.identifiedObjects
        (Store.dispatchAll (@Store.initialState unit)
           (repeat (Store.ADD_IDENTIFIED_OBJECT (Store.Curated hammer)) 11)))
   <= 10)%nat.
Proof.
  apply history_at_most_10. apply Nat.le_0_l.
Defined.

(* ================================================================== *)
(** ** Further properties of the demo fallback                         *)
(* ================================================================== *)

Lemma index_filter_0 {A : Type} (f : A -> bool) (l : list A) :
  Js.index (filter f l) 0 = find f l.
Proof.
  unfold Js.index. cbn.
  induction l as [|x l IH]; cbn; [reflexivity|].
  destruct (f x); [reflexivity | exact IH].
Qed.

Lemma filter_length_pos {A : Type} (f : A -> bool) (l : list A) a :
  find f l = Some a -> (Z.of_nat (List.length (filter f l)) >? 0)%Z = true.
Proof.
  intro H. apply Z.gtb_lt.
  induction l as [|x l IH]; cbn in *; [discriminate|].
  destruct (f x); cbn [List.length]; [lia | now apply IH].
Qed.

(** X14. The two size branches consult no random draw.  An image of more
    than 50000 characters gives the first entry of the category
    "Appliances", with confidence 65; an image of less than 30000
    characters gives the first entry of the category "Hand Tools", with
    confidence 70. *)
Theorem performDemoMatching_by_size db g imageData :
  (forall appliance,
     (50000 < Js.str_length imageData)%Z ->
     find (fun obj => String.eqb (obj_category obj) "Appliances") db
       = Some appliance ->
     performDemoMatching db g imageData =
       Some (mkDemo (Some appliance) 65
               "Demo mode: Detected based on image size analysis")) /\
  (forall tool,
     (Js.str_length imageData < 30000)%Z ->
     find (fun obj => String.eqb (obj_category obj) "Hand Tools") db
       = Some tool ->
     performDemoMatching db g imageData =
       Some (mkDemo (Some tool) 70
               "Demo mode: Detected based on image characteristics")).
Proof.
  split.
  - intros appliance Hsize Hfind. unfold performDemoMatching.
    apply Z.gtb_lt in Hsize. rewrite Hsize.
    rewrite (filter_length_pos _ _ _ Hfind), index_filter_0, Hfind.
    reflexivity.
  - intros tool Hsize Hfind. unfold performDemoMatching.
    destruct (Js.str_length imageData >? 50000)%Z eqn:E;
      [apply Z.gtb_lt in E; lia|].
    unfold demoSmallImage.
    apply Z.ltb_lt in Hsize. rewrite Hsize.
    rewrite (filter_length_pos _ _ _ Hfind), index_filter_0, Hfind.
    reflexivity.
Qed.

(** A small image and a database with a hammer: the hammer, at 70, for
    any draws. *)
Lemma performDemoMatching_by_size_witness :
  performDemoMatching [smartphone; hammer] (draws 0 0 0) "data:,abc"
    = Some (mkDemo (Some hammer) 70
              "Demo mode: Detected based on image characteristics").
Proof.
  apply (proj2 (performDemoMatching_by_size [smartphone; hammer]
                  (draws 0 0 0) "data:,abc")).
  - reflexivity.
  - reflexivity.
Defined.

Lemma index_In {A : Type} (l : list A) i x : Js.index l i = Some x -> In x l.
Proof.
  unfold Js.index. destruct (i <? 0)%Z; [discriminate|]. apply nth_error_In.
Qed.

Lemma filter_pos_find {A : Type} (f : A -> bool) (l : list A) :
  (Z.of_nat (List.length (filter f l)) >? 0)%Z = true ->
  exists a, Js.index (filter f l) 0 = Some a /\ In a l.
Proof.
  intro H. apply Z.gtb_lt in H. rewrite index_filter_0.
  induction l as [|x l IH]; cbn in *; [lia|].
  destruct (f x) eqn:E.
  - exists x. split; [reflexivity | now left].
  - destruct (IH H) as (a & Hfind & Hin). exists a. split; [exact Hfind | now right].
Qed.

(** A size branch returns an entry of the database, or the result is the
    random selection. *)
Lemma performDemoMatching_cases db g imageData :
  (exists obj c msg,
     performDemoMatching db g imageData = Some (mkDemo (Some obj) c msg) /\
     In obj db /\ (c = 65 \/ c = 70)%Z)
  \/ performDemoMatching db g imageData = demoRandomSelection db g.
Proof.
  assert (Hsmall : forall size,
    (exists obj c msg,
       demoSmallImage db g size = Some (mkDemo (Some obj) c msg) /\
       In obj db /\ (c = 65 \/ c = 70)%Z)
    \/ demoSmallImage db g size = demoRandomSelection db g).
  { intro size. unfold demoSmallImage.
    destruct (size <? 30000)%Z; [|now right].
    destruct (Z.of_nat (List.length (filter _ db)) >? 0)%Z eqn:E; [|now right].
    left. destruct (filter_pos_find _ _ E) as (a & -> & Hin).
    do 3 eexists. split; [reflexivity|]. split; [exact Hin | now right]. }
  unfold performDemoMatching.
  destruct (Js.str_length imageData >? 50000)%Z; [|apply Hsmall].
  destruct (Z.of_nat (List.length (filter _ db)) >? 0)%Z eqn:E; [|apply Hsmall].
  left. destruct (filter_pos_find _ _ E) as (a & -> & Hin).
  do 3 eexists. split; [reflexivity|]. split; [exact Hin | now left].
Qed.

Lemma performDemoMatching_outcomes db g imageData :
  db <> [] -> 0 <= g 1%nat < 1 -> 0 <= g 2%nat < 1 ->
  match performDemoMatching db g imageData with
  | Some r =>
      exists obj,
        demo_object r = Some obj /\ In obj db /\
        (40 <= demo_confidence r <= 70)%Z
  | None => True
  end.
Proof.
  intros Hne Hr1 Hr2.
  destruct (performDemoMatching_cases db g imageData)
    as [(obj & c & msg & -> & Hin & Hc) | ->].
  - exists obj. cbn. repeat split; auto; lia.
  - destruct (Qlt_le_dec 0.7 (g 0%nat)) as [Hhit | Hmiss].
    + rewrite (demoRandomSelection_hit db g Hhit).
      destruct (random_index_in_range db g Hr1 Hne) as (obj & Hin & ->).
      exists obj. cbn [demo_object demo_confidence].
      split; [reflexivity|]. split; [exact Hin|].
      assert (B : (0 <= Js.Math_floor (g 2%nat * 30) < 30)%Z).
      { apply JsFacts.Math_floor_bounds.
        - change (inject_Z 0) with 0. lra.
        - change (inject_Z 30) with 30. lra. }
      lia.
    + now rewrite (demoRandomSelection_miss db g Hmiss).
Qed.

Lemma demo_in_class db g imageData :
  db <> [] -> 0 <= g 1%nat < 1 -> 0 <= g 2%nat < 1 ->
  confidence_in_class db (Demo (performIntelligentMatching db g imageData)).
Proof.
  intros Hne Hr1 Hr2. cbn [confidence_in_class].
  pose proof (performDemoMatching_outcomes db g imageData Hne Hr1 Hr2) as H.
  unfold performIntelligentMatching.
  destruct (performDemoMatching db g imageData) as [r|]; [now left | now right].
Qed.

(** X15. With a database that is not empty and draws in [0, 1), the demo
    path either answers with an entry of the database and a confidence
    between 40 and 70, or with the "not recognized" answer, whose
    confidence is 0. *)
Theorem performIntelligentMatching_outcomes db g imageData :
  db <> [] -> 0 <= g 1%nat < 1 -> 0 <= g 2%nat < 1 ->
  (exists obj,
     demo_object (performIntelligentMatching db g imageData) = Some obj /\
     In obj db /\
     (40 <= demo_confidence (performIntelligentMatching db g imageData) <= 70)%Z)
  \/ performIntelligentMatching db g imageData = notRecognized.
Proof.
  intros Hne Hr1 Hr2.
  pose proof (performDemoMatching_outcomes db g imageData Hne Hr1 Hr2) as H.
  unfold performIntelligentMatching.
  destruct (performDemoMatching db g imageData) as [r|].
  - left. exact H.
  - right. reflexivity.
Qed.

(** A small image, no hand tool, first draw 0.2: not recognized. *)
Lemma performIntelligentMatching_outcomes_witness :
  performIntelligentMatching [smartphone] (draws 0.2 0.5 0.5) "data:,abc"
    = notRecognized.
Proof.
  assert (Hne : [smartphone] <> []) by discriminate.
  assert (Hr : 0 <= 0.5 < 1) by (split; vm_compute; [discriminate | reflexivity]).
  destruct (performIntelligentMatching_outcomes [smartphone]
              (draws 0.2 0.5 0.5) "data:,abc" Hne Hr Hr)
    as [(obj & Hobj & _) | H].
  - discriminate Hobj.
  - exact H.
Defined.

(* ================================================================== *)
(** ** Further properties of the orchestrator                          *)
(* ================================================================== *)

Lemma dynamicFallback_outcomes db w labels r :
  dynamicFallback w labels = Js.Return (Some r) -> confidence_in_class db r.
Proof.
  unfold dynamicFallback.
  destruct (hd_error labels) as [bd|]; [|discriminate].
  destruct (score bd) as [s|] eqn:Hs; [|discriminate].
  destruct (Js.gtb s 0.5) eqn:E; [|discriminate].
  destruct (Synth.generateInstructionsForObject (Date_now w) bd)
    as [dynamicObject|e] eqn:Hgen; cbn [Js.bind]; [|discriminate].
  apply generateInstructionsForObject_Return in Hgen.
  destruct Hgen as (label & tags & _ & _ & ->).
  intros [= <-]. cbn [confidence_in_class Synth.confidence].
  apply JsFacts.gtb_true in E. split.
  - rewrite <- (JsFacts.Math_round_inject 50).
    apply JsFacts.Math_round_mono. change (inject_Z 50) with 50. lra.
  - unfold Synth.confidence_of, score_or_0. now rewrite Hs.
Qed.

Lemma onResponses_outcomes db w responses r :
  onResponses db w responses = Js.Return (Some r) -> confidence_in_class db r.
Proof.
  unfold onResponses.
  destruct responses as [[|r0 rest]|]; try discriminate.
  destruct (matchToDatabase db _) as [m|] eqn:Hm;
    [|apply dynamicFallback_outcomes].
  destruct (confidence m >? 70)%Z eqn:Hc; [|apply dynamicFallback_outcomes].
  intros [= <-]. cbn [confidence_in_class].
  apply Z.gtb_lt in Hc. apply matchToDatabase_winner in Hm.
  destruct Hm as (d & obj & _ & _ & Hobj & _ & -> & _).
  cbn [recordFor confidence object] in *. unfold Js.Math_min in *.
  repeat split; [exact Hc | apply Z.le_min_r | exact Hobj].
Qed.

Lemma callComputerVisionAPI_outcomes db w imageData r :
  callComputerVisionAPI db w imageData = Js.Return (Some r) ->
  confidence_in_class db r.
Proof.
  unfold callComputerVisionAPI.
  destruct (Js.or_str (API_KEY w) None); [|discriminate].
  rewrite try_catch_rethrow.
  destruct (fetch w) as [response|]; cbn [Js.bind]; [|discriminate].
  destruct (ok response); cbn [negb]; [|discriminate].
  destruct (json response) as [responses|]; cbn [Js.bind]; [|discriminate].
  apply onResponses_outcomes.
Qed.

(** X16. With a database that is not empty and draws in [0, 1), a
    recognition never throws, and its confidence depends on the path: an
    entry matched in the database has a confidence above 70 and at most
    95; a synthesized object has a confidence of at least 50, the same as
    the one stored in the object; the demo path gives an entry of the
    database with a confidence between 40 and 70, or the "not recognized"
    answer. *)
Theorem performObjectRecognition_outcomes db w imageData :
  db <> [] -> 0 <= random w 1%nat < 1 -> 0 <= random w 2%nat < 1 ->
  exists r,
    performObjectRecognition db w imageData = Js.Return r /\
    confidence_in_class db r.
Proof.
  intros Hne Hr1 Hr2. unfold performObjectRecognition.
  destruct (callComputerVisionAPI db w imageData) as [[r|]|e] eqn:Hcall;
    cbn [Js.try_catch Js.bind].
  - exists r. split; [reflexivity|].
    now apply (callComputerVisionAPI_outcomes db w imageData).
  - eexists. split; [reflexivity|]. now apply demo_in_class.
  - eexists. split; [reflexivity|]. now apply demo_in_class.
Qed.

(** The provider answers "xyz-unknown-123" at 0.6: a synthesized object
    with confidence 60. *)
Lemma performObjectRecognition_outcomes_witness :
  exists dynamicObject,
    performObjectRecognition [hammer; smartphone]
      (answering [label_detection "xyz-unknown-123" 0.6] []) "data:,abc"
    = Js.Return (Dynamic dynamicObject 60) /\
    Synth.confidence dynamicObject = 60%Z.
Proof.
  assert (Hne : [hammer; smartphone] <> []) by discriminate.
  assert (H0 : 0 <= 0 < 1) by (split; vm_compute; [discriminate | reflexivity]).
  destruct (performObjectRecognition_outcomes [hammer; smartphone]
              (answering [label_detection "xyz-unknown-123" 0.6] [])
              "data:,abc" Hne H0 H0)
    as (r & Hr & Hclass).
  vm_compute in Hr. injection Hr as <-.
  eexists. split; [reflexivity|].
  cbn [confidence_in_class] in Hclass. symmetry. exact (proj2 Hclass).
Defined.




(* ================================================================== *)
(** ** Properties of [identifyObject]                                  *)
(* ================================================================== *)

Section IdentifyFacts.

Import Store.

Variable Tip : Type.

(** X18. [identifyObject] raises the loading flag and lowers it again at
    once: its second dispatch, which clears the error, also sets
    [loading] to false, so the flag is down while the recognition runs;
    it is down as well after the last dispatch. *)
Theorem identifyObject_loading (s : State Tip) db w saveIdentification
    typeErrorText imageData :
  (exists rest,
     @identifyObject Tip db w saveIdentification typeErrorText imageData
       = SET_LOADING true :: SET_ERROR None :: rest) /\
  loading (dispatchAll s [SET_LOADING true; SET_ERROR None]) = false /\
  loading (dispatchAll s
             (identifyObject db w saveIdentification typeErrorText imageData))
    = false.
Proof.
  unfold identifyObject.
  split; [eexists; reflexivity|]. split; [reflexivity|].
  destruct (performObjectRecognition db w imageData) as [result|e];
    [|reflexivity].
  destruct (result_object result) as [obj|]; [|reflexivity].
  destruct (saveIdentification obj); reflexivity.
Qed.

(** X19. With a database that is not empty and draws in [0, 1), a call of
    [identifyObject] ends in one of two ways.  Either the recognition gave
    an object: it becomes the current object and the head of the history,
    which keeps nine of its former objects, the confidence is the one of
    the recognition, and the error is empty unless saving failed.  Or the
    error is the "not recognized" message of the demo path and nothing
    else changes; the default message of [identifyObject] itself is never
    shown. *)
Theorem identifyObject_outcome (s : State Tip) db w saveIdentification
    typeErrorText imageData :
  db <> [] -> 0 <= random w 1%nat < 1 -> 0 <= random w 2%nat < 1 ->
  (exists r obj,
     performObjectRecognition db w imageData = Js.Return r /\
     result_object r = Some obj /\
     dispatchAll s
       (identifyObject db w saveIdentification typeErrorText imageData)
     = mkState Tip (Some obj) (obj :: firstn 9 (identifiedObjects s))
         (searchResults s) (communityTips s) false
         (match saveIdentification obj with
          | Js.Return _ => None
          | Js.Throw e => Some (message_of typeErrorText e)
          end)
         (result_confidence r))
  \/
  dispatchAll s
    (identifyObject db w saveIdentification typeErrorText imageData)
  = mkState Tip (currentObject s) (identifiedObjects s) (searchResults s)
      (communityTips s) false (Some (demo_message notRecognized))
      (confidence s).
Proof.
  intros Hne Hr1 Hr2.
  assert (Hrec : exists r,
            performObjectRecognition db w imageData = Js.Return r /\
            confidence_in_class db r).
  { unfold performObjectRecognition.
    destruct (callComputerVisionAPI db w imageData) as [[r|]|e] eqn:Hcall;
      cbn [Js.try_catch Js.bind].
    - exists r. split; [reflexivity|].
      now apply (callComputerVisionAPI_outcomes db w imageData).
    - eexists. split; [reflexivity|]. now apply demo_in_class.
    - eexists. split; [reflexivity|]. now apply demo_in_class. }
  destruct Hrec as (r & Hr & Hclass).
  unfold identifyObject. rewrite Hr.
  destruct r as [m | dynamicObject c | d]; cbn [confidence_in_class] in Hclass.
  - left. exists (DatabaseMatch m), (Curated (object m)).
    split; [reflexivity|]. split; [reflexivity|].
    cbn [result_object]. destruct (saveIdentification _); reflexivity.
  - left. exists (Dynamic dynamicObject c), (Synthesized dynamicObject).
    split; [reflexivity|]. split; [reflexivity|].
    cbn [result_object]. destruct (saveIdentification _); reflexivity.
  - destruct Hclass as [(obj & Hobj & _) | ->].
    + left. exists (Demo d), (Curated obj).
      split; [reflexivity|]. cbn [result_object]. rewrite Hobj.
      split; [reflexivity|]. cbn [option_map].
      destruct (saveIdentification _); reflexivity.
    + right. reflexivity.
Qed.

End IdentifyFacts.

(** No key, a small image, no hand tool and a first draw of 0.2: the
    error is the "not recognized" message. *)
Lemma identifyObject_outcome_witness :
  Store.error
    (Store.dispatchAll (@Store.initialState unit)
       (Store.identifyObject [smartphone] (keyless (draws 0.2 0.5 0.5))
          (fun _ => Js.Return tt) "TypeError" "data:,abc"))
  = Some "Object not recognized. Try taking another photo with better lighting or search manually using the search tab.".
Proof.
  assert (Hne : [smartphone] <> []) by discriminate.
  assert (Hr : 0 <= 0.5 < 1) by (split; vm_compute; [discriminate | reflexivity]).
  destruct (identifyObject_outcome unit Store.initialState [smartphone]
              (keyless (draws 0.2 0.5 0.5)) (fun _ => Js.Return tt)
              "TypeError" "data:,abc" Hne Hr Hr)
    as [(r & obj & Hrec & Hobj & _) | ->].
  - vm_compute in Hrec. injection Hrec as <-. discriminate Hobj.
  - reflexivity.
Defined.

(* ================================================================== *)
(** ** Properties of [searchObjects]                                   *)
(* ================================================================== *)

Section SearchFacts.

Import Store.

Variable Tip : Type.

Lemma matchesQuery_weaken q1 q2 obj :
  Js.includes q2 q1 = true ->
  matchesQuery q2 obj = true -> matchesQuery q1 obj = true.
Proof.
  intros Hsub. apply StringFacts.includes_toLowerCase in Hsub.
  unfold matchesQuery. rewrite !orb_true_iff, !existsb_exists.
  intros [[H | H] | (tag & Hin & H)].
  - left. left. eapply StringFacts.includes_trans; eassumption.
  - left. right. eapply StringFacts.includes_trans; eassumption.
  - right. exists tag. split; [exact Hin|].
    eapply StringFacts.includes_trans; eassumption.
Qed.

Lemma filter_filter_implied {A : Type} (f g : A -> bool) (l : list A) :
  (forall x, f x = true -> g x = true) ->
  filter f (filter g l) = filter f l.
Proof.
  intro Himp. induction l as [|x l IH]; cbn [filter]; [reflexivity|].
  destruct (g x) eqn:Hg; cbn [filter].
  - now rewrite IH.
  - destruct (f x) eqn:Hf; [|exact IH].
    apply Himp in Hf. congruence.
Qed.

(** X20. Searching with the empty query returns the whole database, in
    its order; and an entry of the database is among the results when the
    query is its name, its category or one of its tags. *)
Theorem searchObjects_finds db :
  @searchObjects Tip db "" = SET_SEARCH_RESULTS db /\
  (forall obj query,
     In obj db ->
     query = obj_name obj \/ query = obj_category obj \/ In query (obj_tags obj) ->
     In obj (filter (matchesQuery query) db) /\
     @searchObjects Tip db query
       = SET_SEARCH_RESULTS (filter (matchesQuery query) db)).
Proof.
  split.
  - unfold searchObjects. f_equal.
    induction db as [|x l IH]; cbn [filter]; [reflexivity|].
    unfold matchesQuery at 1.
    change (Js.toLowerCase "") with "".
    rewrite StringFacts.includes_empty. cbn [orb]. now rewrite IH.
  - intros obj query Hin Hq. split; [|reflexivity].
    apply filter_In. split; [exact Hin|].
    unfold matchesQuery. rewrite !orb_true_iff, existsb_exists.
    destruct Hq as [-> | [-> | Htag]].
    + left. left. apply StringFacts.includes_refl.
    + left. right. apply StringFacts.includes_refl.
    + right. exists query. split; [exact Htag | apply StringFacts.includes_refl].
Qed.

(** X21. The search does not see the letter case of an ASCII query. *)
Theorem searchObjects_ignores_case db query :
  Js.is_ascii query = true ->
  @searchObjects Tip db (Js.toUpperCase query) = searchObjects db query.
Proof.
  intros _. unfold searchObjects. f_equal. apply filter_ext. intro obj.
  unfold matchesQuery. now rewrite toLowerCase_toUpperCase.
Qed.

(** X22. A longer query narrows the search: when [q1] occurs in [q2], the
    results for [q2] are those results for [q1] that pass the test for
    [q2], so every result for [q2] is a result for [q1]. *)
Theorem searchObjects_refines db q1 q2 :
  Js.includes q2 q1 = true ->
  @searchObjects Tip db q2
    = SET_SEARCH_RESULTS (filter (matchesQuery q2) (filter (matchesQuery q1) db))
  /\
  (forall obj,
     In obj (filter (matchesQuery q2) db) -> In obj (filter (matchesQuery q1) db)).
Proof.
  intro Hsub. split.
  - unfold searchObjects. f_equal. symmetry.
    apply filter_filter_implied. intro obj. now apply matchesQuery_weaken.
  - intros obj Hin. apply filter_In in Hin. destruct Hin as [Hin Hm].
    apply filter_In. split; [exact Hin|].
    now apply (matchesQuery_weaken q1 q2).
Qed.

End SearchFacts.

(** "hammer" is found by the tag "claw", and by "CLAW". *)
Lemma searchObjects_finds_witness :
  In hammer (filter (Store.matchesQuery "claw") [smartphone; hammer; drill]).
Proof.
  apply (proj2 (searchObjects_finds unit [smartphone; hammer; drill])
           hammer "claw").
  - right. left. reflexivity.
  - right. right. left. reflexivity.
Defined.

(** "CLAW" finds what "claw" finds: the hammer. *)
Lemma searchObjects_ignores_case_witness :
  @Store.searchObjects unit [smartphone; hammer; drill] "CLAW"
    = Store.searchObjects [smartphone; hammer; drill] "claw" /\
  @Store.searchObjects unit [smartphone; hammer; drill] "CLAW"
    = Store.SET_SEARCH_RESULTS [hammer].
Proof.
  split; [|reflexivity].
  exact (searchObjects_ignores_case unit [smartphone; hammer; drill] "claw"
           eq_refl).
Defined.

(** "drill" occurs in "power drill": the drill found by the longer query
    is found by the shorter one. *)
Lemma searchObjects_refines_witness :
  Js.includes "power drill" "drill" = true /\
  In drill (filter (Store.matchesQuery "power drill") [smartphone; hammer; drill]) /\
  In drill (filter (Store.matchesQuery "drill") [smartphone; hammer; drill]).
Proof.
  assert (H : In drill (filter (Store.matchesQuery "power drill")
                          [smartphone; hammer; drill]))
    by (left; reflexivity).
  split; [reflexivity|]. split; [exact H|].
  exact (proj2 (searchObjects_refines unit [smartphone; hammer; drill]
                  "drill" "power drill" eq_refl) drill H).
Defined.

(* ================================================================== *)
(** ** Properties of the simple matcher                                *)
(* ================================================================== *)

Module SupersededFacts.

Lemma simple_visitEntry_cases label c bm hs obj :
  Superseded.pairScore label c obj <= hs /\
    Superseded.visitEntry label c (bm, hs) obj = (bm, hs)
  \/
  hs < Superseded.pairScore label c obj /\
    Superseded.visitEntry label c (bm, hs) obj =
      (Some (Superseded.mkMatch obj
               (Js.Math_round (Superseded.pairScore label c obj * 100))),
       Superseded.pairScore label c obj).
Proof.
  unfold Superseded.visitEntry.
  destruct (Js.gtb (Superseded.pairScore label c obj) hs) eqn:E.
  - right. apply JsFacts.gtb_true in E. auto.
  - left. apply JsFacts.gtb_false in E. auto.
Qed.

Lemma simple_entries_loop label c objs : forall st,
  let st' := fold_left (Superseded.visitEntry label c) objs st in
  snd st <= snd st' /\
  (forall obj, In obj objs -> Superseded.pairScore label c obj <= snd st') /\
  (st' = st \/
   exists obj, In obj objs /\ snd st < Superseded.pairScore label c obj /\
     st' = (Some (Superseded.mkMatch obj
                    (Js.Math_round (Superseded.pairScore label c obj * 100))),
            Superseded.pairScore label c obj)).
Proof.
  induction objs as [|o objs IH]; intros st; cbv zeta; cbn [fold_left In].
  - repeat split; [lra | tauto | now left].
  - destruct st as [bm hs].
    specialize (IH (Superseded.visitEntry label c (bm, hs) o)).
    cbv zeta in IH. destruct IH as (Hmono & Hdom & Hprov).
    destruct (simple_visitEntry_cases label c bm hs o) as [[Hle Heq] | [Hlt Heq]];
      rewrite Heq in *; cbn [snd] in *.
    + split; [exact Hmono|]. split.
      * intros obj [<- | Hin]; [lra | now apply Hdom].
      * destruct Hprov as [-> | (obj & Hin & Hs & ->)]; [now left|].
        right. exists obj. auto.
    + split; [lra|]. split.
      * intros obj [<- | Hin]; [lra | now apply Hdom].
      * right. destruct Hprov as [-> | (obj & Hin & Hs & ->)].
        -- exists o. auto.
        -- exists obj. repeat split; auto. lra.
Qed.

Lemma labelled_or_not (ds : list Detection) :
  (forall d, In d ds -> Js.or_str (description d) (name d) <> None)
  \/ exists d, In d ds /\ Js.or_str (description d) (name d) = None.
Proof.
  induction ds as [|d0 ds IH]; [left; intros ? []|].
  destruct (Js.or_str (description d0) (name d0)) eqn:Hl0.
  - destruct IH as [IH | (d & Hin & Hl)].
    + left. intros d [<- | Hin]; [congruence | now apply IH].
    + right. exists d. split; [now right | exact Hl].
  - right. exists d0. split; [now left | exact Hl0].
Qed.

Section WithDatabase.

Variable db : list KnowledgeEntry.

Lemma simple_detections_loop ds : forall st,
  (forall d, In d ds -> Js.or_str (description d) (name d) <> None) ->
  exists st',
    Superseded.forEachDetection db ds st = Js.Return st' /\
    snd st <= snd st' /\
    (forall d label obj,
       In d ds -> Js.or_str (description d) (name d) = Some label -> In obj db ->
       Superseded.pairScore label (score_or_0 d) obj <= snd st') /\
    (st' = st \/
     exists d label obj,
       In d ds /\ Js.or_str (description d) (name d) = Some label /\ In obj db /\
       snd st < Superseded.pairScore label (score_or_0 d) obj /\
       st' = (Some (Superseded.mkMatch obj
                (Js.Math_round
                   (Superseded.pairScore label (score_or_0 d) obj * 100))),
              Superseded.pairScore label (score_or_0 d) obj)).
Proof.
  induction ds as [|d0 ds IH]; intros st Hall; cbn [Superseded.forEachDetection].
  - exists st. repeat split; [lra | intros ? ? ? [] | now left].
  - unfold Superseded.visitDetection.
    destruct (Js.or_str (description d0) (name d0)) as [label0|] eqn:Hl0;
      [|exfalso; now apply (Hall d0 (or_introl eq_refl))].
    cbn [Js.bind].
    destruct (simple_entries_loop label0 (score_or_0 d0) db st) as (Emono & Edom & Eprov).
    destruct (IH (fold_left (Superseded.visitEntry label0 (score_or_0 d0)) db st))
      as (st' & Hret & Hmono & Hdom & Hprov).
    { intros d Hin. apply Hall. now right. }
    exists st'. split; [exact Hret|]. split; [lra|]. split.
    + intros d label obj [<- | Hin] Hl Ho; [|now apply (Hdom d)].
      rewrite Hl0 in Hl. injection Hl as <-.
      specialize (Edom obj Ho). lra.
    + destruct Hprov as [-> | (d & label & obj & Hin & Hl & Ho & Hs & ->)].
      * destruct Eprov as [-> | (obj & Ho & Hs & ->)]; [now left|].
        right. exists d0, label0, obj. repeat split; auto. now left.
      * right. exists d, label, obj. repeat split; auto; [now right | lra].
Qed.

Lemma unlabelled_throws ds : forall st,
  db <> [] ->
  (exists d, In d ds /\ Js.or_str (description d) (name d) = None) ->
  Superseded.forEachDetection db ds st = Js.Throw Js.TypeError.
Proof.
  induction ds as [|d0 ds IH]; intros st Hne (d & Hin & Hl);
    cbn [Superseded.forEachDetection]; [destruct Hin|].
  unfold Superseded.visitDetection.
  destruct (Js.or_str (description d0) (name d0)) as [label0|] eqn:Hl0.
  - cbn [Js.bind]. apply IH; [exact Hne|].
    destruct Hin as [<- | Hin]; [congruence|]. now exists d.
  - destruct db; [congruence | reflexivity].
Qed.

Lemma empty_database_returns ds : forall st,
  db = [] -> Superseded.forEachDetection db ds st = Js.Return st.
Proof.
  intros st ->. induction ds as [|d0 ds IH]; cbn [Superseded.forEachDetection];
    [reflexivity|].
  unfold Superseded.visitDetection.
  destruct (Js.or_str (description d0) (name d0)); cbn [Js.bind fold_left]; exact IH.
Qed.

End WithDatabase.

End SupersededFacts.

(** X23. The simple matcher throws, a [TypeError], exactly when the
    database is not empty and some detection has neither a description
    nor a name. *)
Theorem superseded_throws_iff db ds e :
  Superseded.matchToDatabase db ds = Js.Throw e <->
  db <> [] /\
  (exists d, In d ds /\ Js.or_str (description d) (name d) = None) /\
  e = Js.TypeError.
Proof.
  unfold Superseded.matchToDatabase. split.
  - intro H.
    destruct (SupersededFacts.labelled_or_not ds) as [Hall | Hex].
    + destruct (SupersededFacts.simple_detections_loop db ds (None, 0) Hall)
        as (st' & Hret & _).
      rewrite Hret in H. discriminate H.
    + destruct db as [|obj0 db'] eqn:Hdb.
      * rewrite (SupersededFacts.empty_database_returns [] ds (None, 0) eq_refl)
          in H.
        discriminate H.
      * assert (Hne : obj0 :: db' <> []) by discriminate.
        rewrite (SupersededFacts.unlabelled_throws _ ds (None, 0) Hne Hex) in H.
        cbn [Js.bind] in H. injection H as <-. auto.
  - intros (Hne & Hex & ->).
    now rewrite (SupersededFacts.unlabelled_throws db ds (None, 0) Hne Hex).
Qed.

(** One detection without any label, after one with a label. *)
Lemma superseded_throws_iff_witness :
  Superseded.matchToDatabase [hammer]
    [label_detection "Hammer" 0.9; mkDetection None None (Some 0.9)]
  = Js.Throw Js.TypeError.
Proof.
  apply (proj2 (superseded_throws_iff [hammer]
                  [label_detection "Hammer" 0.9; mkDetection None None (Some 0.9)]
                  Js.TypeError)).
  split; [discriminate|]. split; [|reflexivity].
  exists (mkDetection None None (Some 0.9)).
  split; [right; left; reflexivity | reflexivity].
Defined.



(* ================================================================== *)
(** ** Order of the detections and of the database                     *)
(* ================================================================== *)

Lemma confidence_le_by_members db ds db' ds' m :
  (forall d, In d ds -> In d ds') ->
  (forall obj, In obj db -> In obj db') ->
  matchToDatabase db ds = Some m ->
  exists m',
    matchToDatabase db' ds' = Some m' /\ (confidence m <= confidence m')%Z.
Proof.
  intros Hds Hdb Hm. apply matchToDatabase_winner in Hm.
  destruct Hm as (d & obj & Hd & Hrel & Hobj & Hfloor & -> & _).
  destruct (good_pair_gives_match db' ds' d obj (Hds d Hd) Hrel (Hdb obj Hobj)
              Hfloor) as (m' & Hm' & Hconf).
  exists m'. split; [exact Hm' | exact Hconf].
Qed.

(** X25. Whether the matcher returns a result, and with which confidence,
    depends only on which detections and which entries there are, not on
    their order or on repetitions. *)
Theorem matchToDatabase_confidence_order_free db ds db' ds' :
  (forall d, In d ds <-> In d ds') ->
  (forall obj, In obj db <-> In obj db') ->
  option_map confidence (matchToDatabase db ds)
    = option_map confidence (matchToDatabase db' ds').
Proof.
  intros Hds Hdb.
  destruct (matchToDatabase db ds) as [m|] eqn:H1;
  destruct (matchToDatabase db' ds') as [m'|] eqn:H2; cbn [option_map].
  - destruct (confidence_le_by_members db ds db' ds' m
                (fun d => proj1 (Hds d)) (fun o => proj1 (Hdb o)) H1)
      as (m1 & Hm1 & Hle1).
    destruct (confidence_le_by_members db' ds' db ds m'
                (fun d => proj2 (Hds d)) (fun o => proj2 (Hdb o)) H2)
      as (m2 & Hm2 & Hle2).
    rewrite H2 in Hm1. rewrite H1 in Hm2.
    injection Hm1 as <-. injection Hm2 as <-. f_equal. lia.
  - destruct (confidence_le_by_members db ds db' ds' m
                (fun d => proj1 (Hds d)) (fun o => proj1 (Hdb o)) H1)
      as (m1 & Hm1 & _).
    congruence.
  - destruct (confidence_le_by_members db' ds' db ds m'
                (fun d => proj2 (Hds d)) (fun o => proj2 (Hdb o)) H2)
      as (m2 & Hm2 & _).
    congruence.
  - reflexivity.
Qed.

(** The database and the detections in two orders. *)
Lemma matchToDatabase_confidence_order_free_witness :
  option_map confidence
    (matchToDatabase [hammer; drill]
       [label_detection "drill" 0.5; label_detection "hammer" 0.6])
  = option_map confidence
      (matchToDatabase [drill; hammer]
         [label_detection "hammer" 0.6; label_detection "drill" 0.5]).
Proof.
  apply matchToDatabase_confidence_order_free.
  - intro d. cbn [In]. tauto.
  - intro obj. cbn [In]. tauto.
Defined.


